(** * Certificate generator (server.js): model and verified properties

    The server is a small Express application.  One utility function,
    [drawCertificate], lays a certificate out on a pdfkit document; three
    request handlers (preview, generate, email) call it, and a fourth
    (upload) replaces the in-memory roster from a parsed CSV file.

    The model comes first:
    - [Js]     : the JavaScript string operations the handlers rely on
                 ([trim], [||] on strings, [replace(/\s+/g, '_')]);
    - [Pdf]    : the part of the pdfkit canvas interface that
                 [drawCertificate] uses, as a recording canvas;
    - [Server] : the module state, [drawCertificate] and the handlers;
    - [Spec]   : the notions the properties are stated with;
    - [Layout] : the elements of the certificate, in drawing order;
    - [Page]   : the page pdfkit allocates for the options it is given;
    - [Middleware] : what Express and multer do before a handler runs.
    The properties follow: input validation, stream failures, the
    watermark, the order of drawing, the roster, the default event label
    and the file names. *)

From Stdlib Require Import ZArith QArith List String Ascii Bool Lia.
Import ListNotations.

Set Implicit Arguments.

(* ================================================================== *)
(** ** JavaScript strings *)
(* ================================================================== *)

Module Js.

(** A JavaScript string is a sequence of UTF-16 code units. *)
Definition str := list N.

(** String literals of the source, written as Rocq strings. *)
Definition lit (s : string) : str :=
  map N_of_ascii (list_ascii_of_string s).

(** The double-quote character (code unit 34). *)
Definition dquote : str := [34%N].

(** ECMAScript WhiteSpace and LineTerminator code points: what
    [String.prototype.trim] strips and what the regular-expression class
    [\s] matches. *)
Definition isWhiteSpace (c : N) : bool :=
  ((9 <=? c) && (c <=? 13)            (* TAB LF VT FF CR *)
   || (c =? 32)                       (* SPACE *)
   || (c =? 160)                      (* NO-BREAK SPACE *)
   || (c =? 5760)                     (* OGHAM SPACE MARK *)
   || (8192 <=? c) && (c <=? 8202)    (* EN QUAD .. HAIR SPACE *)
   || (c =? 8232) || (c =? 8233)      (* LINE / PARAGRAPH SEPARATOR *)
   || (c =? 8239) || (c =? 8287)      (* NARROW NBSP, MEDIUM MATH SPACE *)
   || (c =? 12288)                    (* IDEOGRAPHIC SPACE *)
   || (c =? 65279))%N.                (* ZERO WIDTH NO-BREAK SPACE *)

Fixpoint trimStart (s : str) : str :=
  match s with
  | [] => []
  | c :: t => if isWhiteSpace c then trimStart t else s
  end.

Definition trimEnd (s : str) : str := rev (trimStart (rev s)).

(** [s.trim()] *)
Definition trim (s : str) : str := trimEnd (trimStart s).

(** Truthiness of a string: every string but the empty one. *)
Definition truthy (s : str) : bool :=
  match s with [] => false | _ :: _ => true end.

(** Truthiness of a value that is a string or [undefined]. *)
Definition truthyOpt (o : option str) : bool :=
  match o with Some s => truthy s | None => false end.

(** [a || b], for a string [a]. *)
Definition or (a b : str) : str := if truthy a then a else b.

(** [o || b], for [o] a string or [undefined]. *)
Definition orElse (o : option str) (b : str) : str :=
  match o with
  | Some s => or s b
  | None => b
  end.

(** [o?.trim() || ""] *)
Definition trimOrEmpty (o : option str) : str :=
  match o with
  | Some s => or (trim s) []
  | None => []
  end.

(** [s.replace(/\s+/g, '_')]: the global flag makes the engine scan from
    left to right; [\s+] is greedy, so each maximal run of white space is
    one match and becomes one underscore.  [inRun] tells that the previous
    code unit belonged to the run already replaced. *)
Fixpoint replaceRuns (inRun : bool) (s : str) : str :=
  match s with
  | [] => []
  | c :: t =>
      if isWhiteSpace c
      then (if inRun then replaceRuns true t
            else 95%N :: replaceRuns true t)
      else c :: replaceRuns false t
  end.

Definition replaceWhitespace (s : str) : str := replaceRuns false s.

(** The string a truthy string-or-[undefined] value is. *)
Definition valueOf (o : option str) : str :=
  match o with Some s => s | None => [] end.

(** Number arithmetic, kept in lowest terms so that equal numbers are
    equal terms. *)
Definition minus (a b : Q) : Q := Qred (a - b).
Definition over (a b : Q) : Q := Qred (a / b).

(** Whether a string has no white space at all. *)
Definition noWhiteSpace (s : str) : bool :=
  forallb (fun c => negb (isWhiteSpace c)) s.

(** Whether a string is empty or made of white space only. *)
Definition blank (s : str) : bool := forallb isWhiteSpace s.

(** Equality of strings. *)
Fixpoint eqb (a b : str) : bool :=
  match a, b with
  | [], [] => true
  | c :: a', d :: b' => (c =? d)%N && eqb a' b'
  | _, _ => false
  end.

(** The code units Node accepts in a header value: TAB, 0x20 to 0x7E and
    0x80 to 0xFF.  [res.setHeader] throws [ERR_INVALID_CHAR] on any
    other. *)
Definition headerChar (c : N) : bool :=
  ((c =? 9) || (32 <=? c) && (c <=? 126) || (128 <=? c) && (c <=? 255))%N.

Definition validHeaderValue (s : str) : bool := forallb headerChar s.

End Js.

(* ================================================================== *)
(** ** Exceptions *)
(* ================================================================== *)

(** A computation either returns or throws an error carrying a message. *)
Inductive result (A : Type) : Type :=
| Ok (a : A)
| Throw (message : Js.str).

Arguments Ok {A} a.
Arguments Throw {A} message.

Definition bind {A B : Type} (r : result A) (k : A -> result B) : result B :=
  match r with
  | Ok a => k a
  | Throw m => Throw m
  end.

(** Method chaining [doc.f(...).g(...)]: the receiver flows from left to
    right, and a throw skips the rest of the chain. *)
Notation "r '|>' f" := (bind r f) (at level 50, left associativity).

(* ================================================================== *)
(** ** The pdfkit canvas *)
(* ================================================================== *)

(** pdfkit is a dependency of the server, not part of it.  The model keeps
    what [drawCertificate] can observe of a [PDFDocument]: the current page,
    the path under construction, the PDF graphics state with its save stack,
    the document-level font selection, and the chronological record of the
    calls that add a page or paint.  Each painted element carries the
    graphics state it was painted with.  Numbers are rationals; the source
    only uses integers, the halves of integers and the literals [0.2] and
    [1].

    The record is a record of calls.  What pdfkit does inside a call is not
    modelled: in particular a text that does not fit the page is continued by
    pdfkit on a page it adds itself, and the elements painted afterwards land
    on that page; the record shows the one [text] call and no such page. *)

Module Pdf.

(** [rotate(angle, { origin: [x, y] })]: degrees, positive angles turn
    clockwise on the page (the y axis of pdfkit points down). *)
Inductive transform : Type :=
| Rotate (angle : Q) (ox oy : Q).

(** What [save]/[restore] (the PDF operators q and Q) push and pop. *)
Record gstate : Type := mkG {
  ctm : list transform;       (* transformations applied, newest first *)
  fillColor : Js.str;
  strokeColor : Js.str;
  opacity : Q;
  lineWidth : Q
}.

Inductive segment : Type :=
| Rect (x y w h : Q)
| MoveTo (x y : Q)
| LineTo (x y : Q).

Record textOptions : Type := mkT {
  align : option Js.str;
  width : option Q
}.

Definition noOptions : textOptions := mkT None None.

Inductive element : Type :=
| Filled (path : list segment) (g : gstate)
| Stroked (path : list segment) (g : gstate)
| Text (s : Js.str) (x y : Q) (o : textOptions)
       (font : Js.str) (size : Q) (g : gstate).

Record pageOptions : Type := mkP {
  size : Q * Q;
  layout : Js.str;
  margin : Q
}.

Inductive event : Type :=
| PageAdded (o : pageOptions)
| Painted (e : element)
| Ended.

Record document : Type := mkD {
  events : list event;        (* newest first *)
  page : option pageOptions;  (* [doc.page], absent before [addPage] *)
  path : list segment;        (* path under construction *)
  gs : gstate;
  stack : list gstate;
  font : Js.str;
  fontSize : Q
}.

(** The graphics state every page starts with. *)
Definition initialGstate : gstate :=
  mkG [] (Js.lit "black") (Js.lit "black") 1 1.

(** [new PDFDocument({ autoFirstPage: false })] *)
Definition create : document :=
  mkD [] None [] initialGstate [] (Js.lit "Helvetica") 12.

(** What the document has received, oldest first. *)
Definition trace (d : document) : list event := rev (events d).

(** Operations that write to the page throw when there is no page. *)
Definition noPage : Js.str :=
  Js.lit "TypeError: Cannot read properties of null".

Definition onPage (d : document) (k : document) : result document :=
  match page d with
  | Some _ => Ok k
  | None => Throw noPage
  end.

Definition withGs (d : document) (g : gstate) : document :=
  mkD (events d) (page d) (path d) g (stack d) (font d) (fontSize d).

Definition withPath (d : document) (p : list segment) : document :=
  mkD (events d) (page d) p (gs d) (stack d) (font d) (fontSize d).

Definition paint (d : document) (e : element) : document :=
  mkD (Painted e :: events d) (page d) [] (gs d) (stack d)
      (font d) (fontSize d).

(** [doc.addPage(options)]: a new page starts with the default graphics
    state and no path. *)
Definition addPage (o : pageOptions) (d : document) : result document :=
  Ok (mkD (PageAdded o :: events d) (Some o) [] initialGstate []
          (font d) (fontSize d)).

Definition rect (x y w h : Q) (d : document) : result document :=
  onPage d (withPath d (path d ++ [Rect x y w h])).

Definition moveTo (x y : Q) (d : document) : result document :=
  onPage d (withPath d (path d ++ [MoveTo x y])).

Definition lineTo (x y : Q) (d : document) : result document :=
  onPage d (withPath d (path d ++ [LineTo x y])).

Definition setLineWidth (w : Q) (d : document) : result document :=
  let g := gs d in
  onPage d (withGs d (mkG (ctm g) (fillColor g) (strokeColor g)
                          (opacity g) w)).

(** [doc.fillColor(color)] *)
Definition setFillColor (c : Js.str) (d : document) : result document :=
  let g := gs d in
  onPage d (withGs d (mkG (ctm g) c (strokeColor g)
                          (opacity g) (lineWidth g))).

Definition setStrokeColor (c : Js.str) (d : document) : result document :=
  let g := gs d in
  onPage d (withGs d (mkG (ctm g) (fillColor g) c
                          (opacity g) (lineWidth g))).

(** [doc.opacity(o)] *)
Definition setOpacity (o : Q) (d : document) : result document :=
  let g := gs d in
  onPage d (withGs d (mkG (ctm g) (fillColor g) (strokeColor g)
                          o (lineWidth g))).

(** [doc.fill(color)]: select the colour, then fill the current path. *)
Definition fill (c : Js.str) (d : document) : result document :=
  setFillColor c d |> fun d' =>
  Ok (paint d' (Filled (path d') (gs d'))).

(** [doc.stroke(color)]: select the colour, then stroke the current
    path. *)
Definition stroke (c : Js.str) (d : document) : result document :=
  setStrokeColor c d |> fun d' =>
  Ok (paint d' (Stroked (path d') (gs d'))).

(** [doc.fontSize(n)] and [doc.font(name)] only select; they need no
    page. *)
Definition setFontSize (n : Q) (d : document) : result document :=
  Ok (mkD (events d) (page d) (path d) (gs d) (stack d) (font d) n).

Definition setFont (f : Js.str) (d : document) : result document :=
  Ok (mkD (events d) (page d) (path d) (gs d) (stack d) f (fontSize d)).

(** [doc.text(s, x, y, options)]: the call, with the font and the graphics
    state in force; the lines and pages pdfkit lays the string out on are not
    part of the record. *)
Definition text (s : Js.str) (x y : Q) (o : textOptions) (d : document)
  : result document :=
  onPage d (mkD (Painted (Text s x y o (font d) (fontSize d) (gs d))
                   :: events d)
                (page d) (path d) (gs d) (stack d) (font d) (fontSize d)).

Definition save (d : document) : result document :=
  onPage d (mkD (events d) (page d) (path d) (gs d) (gs d :: stack d)
                (font d) (fontSize d)).

(** [restore] pops the saved state; with nothing saved it leaves the
    state alone. *)
Definition restore (d : document) : result document :=
  onPage d (match stack d with
            | g :: rest =>
                mkD (events d) (page d) (path d) g rest (font d) (fontSize d)
            | [] => d
            end).

Definition rotate (angle : Q) (origin : Q * Q) (d : document)
  : result document :=
  let g := gs d in
  onPage d (withGs d (mkG (Rotate angle (fst origin) (snd origin) :: ctm g)
                          (fillColor g) (strokeColor g)
                          (opacity g) (lineWidth g))).

(** [doc.end()] finalizes the document. *)
Definition finish (d : document) : document :=
  mkD (Ended :: events d) (page d) (path d) (gs d) (stack d)
      (font d) (fontSize d).

(** The readable side of the document after [end()].  The bytes pdfkit
    encodes are abstracted to the recorded calls, one chunk each.  The
    handlers listen for an ['error'] event of the document; whether pdfkit
    ever emits one is not decided in the source, so the event is an input of
    the model: [Some (k, m)] makes the stream emit its first [k] chunks and
    then ['error'] with message [m]; [None] makes it emit everything and
    then ['end']. *)
Definition fault : Type := option (nat * Js.str).

Inductive emission : Type :=
| Emitted (chunks : list event)
| Failed (chunks : list event) (message : Js.str).

Definition emit (f : fault) (d : document) : emission :=
  match f with
  | None => Emitted (trace d)
  | Some (k, m) => Failed (firstn k (trace d)) m
  end.

End Pdf.

(* ================================================================== *)
(** ** The server *)
(* ================================================================== *)

Module Server.

(** *** Module state (lines 16-18) *)

Record participant : Type := mkParticipant {
  name : Js.str;
  email : Js.str
}.

Record state : Type := mkState {
  participants : list participant;
  currentEvent : Js.str
}.

Definition initial : state :=
  mkState [] (Js.lit "Community Event").

(** *** What a handler leaves behind *)

(** The JSON objects the handlers answer with. *)
Inductive json : Type :=
| UploadOk (count : nat) (event : Js.str)   (* { ok: true, count, event } *)
| NamesOk (event : Js.str) (roster : list participant)
                                   (* { ok: true, event, participants } *)
| MessageOk (message : Js.str)              (* { ok: true, message } *)
| Failure (error : Js.str).                 (* { ok: false, error } *)

Inductive body : Type :=
| Sent (text : Js.str)                 (* [res.send(text)] *)
| Json (v : json)                      (* [res.json(v)] *)
| Piped (chunks : list Pdf.event).     (* [doc.pipe(res)] *)

Record response : Type := mkResponse {
  status : Z;
  headers : list (string * Js.str);
  payload : body;
  finished : bool                      (* whether the response was ended *)
}.

Record attachment : Type := mkAttachment {
  filename : Js.str;
  content : list Pdf.event
}.

Record mail : Type := mkMail {
  from : Js.str;
  to : Js.str;
  subject : Js.str;
  text : Js.str;
  attachments : list attachment
}.

Record outcome : Type := mkOutcome {
  after : state;                       (* module state after the handler *)
  reply : response;
  console : list Js.str;               (* [console.error] lines *)
  outbox : list mail;                  (* messages handed to the transport *)
  unlinked : list Js.str               (* files removed *)
}.

(** What a handler reads from outside the request: the date string that
    [new Date().toLocaleDateString()] returns during the call, the fate of
    the document stream, the fate of the SMTP delivery, and the
    [FROM_EMAIL] environment variable. *)
Record runtime : Type := mkRuntime {
  today : Js.str;
  docFault : Pdf.fault;
  smtpFault : option Js.str;
  fromEmail : option Js.str
}.

(** *** PDF generator (lines 57-98) *)

Definition W : Q := 842.
Definition H : Q := 595.

Definition centered : Pdf.textOptions :=
  Pdf.mkT (Some (Js.lit "center")) None.

Definition watermarkBlock (doc : Pdf.document) : result Pdf.document :=
  Ok doc
  |> Pdf.save
  |> Pdf.rotate (-20) (Js.over W 2, Js.over H 2)
  |> Pdf.setFontSize 100 |> Pdf.setFillColor (Js.lit "#cccccc")
  |> Pdf.setOpacity 0.2
  |> Pdf.setFont (Js.lit "Helvetica-Bold")
  |> Pdf.text (Js.lit "SAMPLE")
       (Js.minus (Js.over W 2) 250) (Js.minus (Js.over H 2) 60)
       Pdf.noOptions
  |> Pdf.setOpacity 1 |> Pdf.restore.

(** [today] is the value of [new Date().toLocaleDateString()] (line 82);
    every call site passes the [watermark] option, so its default is not
    modelled. *)
Definition drawCertificate (doc : Pdf.document) (name eventName : Js.str)
    (watermark : bool) (today : Js.str) : result Pdf.document :=
  Ok doc
  |> Pdf.addPage (Pdf.mkP (W, H) (Js.lit "landscape") 0)
  (* Background *)
  |> Pdf.rect 0 0 W H |> Pdf.fill (Js.lit "#fdfcf7")
  |> Pdf.rect 30 30 (Js.minus W 60) (Js.minus H 60)
  |> Pdf.setLineWidth 4 |> Pdf.stroke (Js.lit "#222")
  (* Heading *)
  |> Pdf.fill (Js.lit "#222")
  |> Pdf.setFontSize 26 |> Pdf.setFont (Js.lit "Helvetica-Bold")
  |> Pdf.text (Js.lit "CERTIFICATE OF PARTICIPATION") 0 80 centered
  (* Subtitle *)
  |> Pdf.setFontSize 16 |> Pdf.setFont (Js.lit "Helvetica")
  |> Pdf.text (Js.lit "This is to certify that") 0 135 centered
  (* Recipient name *)
  |> Pdf.setFontSize 48 |> Pdf.setFont (Js.lit "Helvetica-Bold")
  |> Pdf.fill (Js.lit "#111")
  |> Pdf.text name 0 175 centered
  (* Body *)
  |> Pdf.setFontSize 16 |> Pdf.setFont (Js.lit "Helvetica")
  |> Pdf.text (Js.lit "has successfully participated in") 0 240 centered
  |> Pdf.setFontSize 22 |> Pdf.setFont (Js.lit "Helvetica-Bold")
  |> Pdf.text eventName 0 270 centered
  (* Footer *)
  |> Pdf.setFontSize 12 |> Pdf.setFont (Js.lit "Helvetica-Oblique")
  |> Pdf.fill (Js.lit "#333")
  |> Pdf.text (Js.lit "Date: " ++ today) 70 (Js.minus H 80) Pdf.noOptions
  (* Signature area *)
  |> Pdf.moveTo (Js.minus W 250) (Js.minus H 120)
  |> Pdf.lineTo (Js.minus W 70) (Js.minus H 120)
  |> Pdf.stroke (Js.lit "#333")
  |> Pdf.setFontSize 12 |> Pdf.setFont (Js.lit "Helvetica")
  |> Pdf.text (Js.lit "Authorized Signature")
       (Js.minus W 250) (Js.minus H 110)
       (Pdf.mkT (Some (Js.lit "center")) (Some 180))
  (* Watermark *)
  |> fun doc => if watermark then watermarkBlock doc else Ok doc.


(** *** Preview (lines 101-114) *)

(** The query of a request whose parameters are strings or absent; what
    happens with a repeated or bracketed parameter is in [Middleware]. *)
Record query : Type := mkQuery {
  q_name : option Js.str;
  q_event : option Js.str
}.

Definition pdfType : string * Js.str :=
  ("Content-Type"%string, Js.lit "application/pdf").

(** After [doc.pipe(res)] and [doc.end()]: the chunks reach the response;
    the response is ended when the document emits ['end']; the ['error']
    listener of the handler prints the error and nothing else. *)
Definition pipeToResponse (rt : runtime) (st : state)
    (hs : list (string * Js.str)) (doc : Pdf.document) : outcome :=
  match Pdf.emit (docFault rt) (Pdf.finish doc) with
  | Pdf.Emitted chunks =>
      mkOutcome st (mkResponse 200 hs (Piped chunks) true) [] [] []
  | Pdf.Failed chunks m =>
      mkOutcome st (mkResponse 200 hs (Piped chunks) false) [m] [] []
  end.

(** An exception that leaves a synchronous handler reaches the default
    error handler of Express, which answers 500. *)
Definition uncaught (st : state) (m : Js.str) : outcome :=
  mkOutcome st (mkResponse 500 [] (Sent m) true) [m] [] [].

Definition missingName (st : state) : outcome :=
  mkOutcome st (mkResponse 400 [] (Sent (Js.lit "Missing name")) true)
            [] [] [].

Definition apiPreview (rt : runtime) (st : state) (q : query) : outcome :=
  let name := Js.trim (Js.orElse (q_name q) []) in
  let eventName :=
    Js.trim (Js.or (Js.orElse (q_event q) (currentEvent st))
                   (Js.lit "Event")) in
  if negb (Js.truthy name) then missingName st
  else
    let hs := [pdfType] in
    match drawCertificate Pdf.create name eventName true (today rt) with
    | Ok doc => pipeToResponse rt st hs doc
    | Throw m => uncaught st m
    end.

(** *** Generate (lines 117-132) *)

(** [`Certificate_${name.replace(/\s+/g, '_')}.pdf`] *)
Definition certificateFilename (name : Js.str) : Js.str :=
  Js.lit "Certificate_" ++ Js.replaceWhitespace name ++ Js.lit ".pdf".

Definition disposition (file : Js.str) : string * Js.str :=
  ("Content-Disposition"%string,
   Js.lit "attachment; filename=" ++ Js.dquote ++ file ++ Js.dquote).

Definition invalidHeader : Js.str :=
  Js.lit "TypeError [ERR_INVALID_CHAR]: Invalid character in header content".

Definition apiGenerate (rt : runtime) (st : state) (q : query) : outcome :=
  let name := Js.trim (Js.orElse (q_name q) []) in
  let eventName :=
    Js.trim (Js.or (Js.orElse (q_event q) (currentEvent st))
                   (Js.lit "Event")) in
  if negb (Js.truthy name) then missingName st
  else
    let file := certificateFilename name in
    (* [res.setHeader] validates the value before anything is piped *)
    if negb (Js.validHeaderValue (snd (disposition file)))
    then uncaught st invalidHeader
    else
      let hs := [pdfType; disposition file] in
      match drawCertificate Pdf.create name eventName false (today rt) with
      | Ok doc => pipeToResponse rt st hs doc
      | Throw m => uncaught st m
      end.

(** *** Email (lines 137-179) *)

(** The JSON body, with its three fields as strings or absent; bodies with
    a field of another JSON type are outside the model. *)
Record message : Type := mkMessage {
  m_name : option Js.str;
  m_email : option Js.str;
  m_event : option Js.str
}.

Definition newline : Js.str := [10%N].

Definition failure500 (st : state) (m : Js.str) : outcome :=
  mkOutcome st (mkResponse 500 [] (Json (Failure m)) true) [] [] [].

Definition apiEmail (rt : runtime) (st : state) (b : message) : outcome :=
  if negb (Js.truthyOpt (m_name b)) || negb (Js.truthyOpt (m_email b)) then
    mkOutcome st
      (mkResponse 400 []
         (Json (Failure (Js.lit "name and email required"))) true)
      [] [] []
  else
    let name := Js.valueOf (m_name b) in
    let email := Js.valueOf (m_email b) in
    let eventName :=
      Js.or (Js.orElse (m_event b) (currentEvent st)) (Js.lit "Event") in
    (* Create PDF to a buffer *)
    match drawCertificate Pdf.create name eventName false (today rt) with
    | Throw m => failure500 st m
    | Ok doc =>
        match Pdf.emit (docFault rt) (Pdf.finish doc) with
        | Pdf.Failed _ m => failure500 st m          (* the promise rejects *)
        | Pdf.Emitted pdfBuffer =>
            (* Transport: the letter is handed over, then the delivery
               succeeds or fails *)
            let letter :=
              mkMail
                (Js.orElse (fromEmail rt)
                           (Js.lit "no-reply@example.com"))
                email
                (Js.lit "Your Certificate - " ++ eventName)
                (Js.lit "Hi " ++ name ++ Js.lit "," ++ newline
                 ++ newline
                 ++ Js.lit "Please find attached your certificate for "
                 ++ eventName ++ Js.lit "." ++ newline ++ newline
                 ++ Js.lit "Regards," ++ newline
                 ++ Js.lit "Organizer")
                [mkAttachment (certificateFilename name) pdfBuffer] in
            match smtpFault rt with
            | Some m =>
                mkOutcome st
                  (mkResponse 500 [] (Json (Failure m)) true)
                  [] [letter] []
            | None =>
                mkOutcome st
                  (mkResponse 200 []
                     (Json (MessageOk (Js.lit "Email sent"))) true)
                  [] [letter] []
            end
        end
    end.

(** *** CSV upload (lines 23-49) *)

(** A record as the parser hands it over: the [name] and [email] columns,
    absent when the file has no such column. *)
Record csvRow : Type := mkRow {
  r_name : option Js.str;
  r_email : option Js.str
}.

(** What the parser stream does: one ['data'] event per record, then
    ['end'], or ['error'] where [broken] holds the message. *)
Record parsing : Type := mkParsing {
  records : list csvRow;
  broken : option Js.str
}.

Record submission : Type := mkSubmission {
  u_event : option Js.str;             (* [req.body.event] *)
  u_file : option Js.str;              (* [req.file.path], if a file came *)
  u_parsing : parsing
}.

(** The ['data'] listener. *)
Definition onData (rows : list participant) (row : csvRow)
  : list participant :=
  match r_name row with
  | Some n =>
      if Js.truthy n && Js.truthy (Js.trim n)
      then rows ++ [mkParticipant (Js.trim n) (Js.trimOrEmpty (r_email row))]
      else rows
  | None => rows
  end.

(** The handler proper; the requests multer refuses before it runs are in
    [Middleware]. *)
Definition apiUpload (st : state) (u : submission) : outcome :=
  let eventName := Js.orElse (u_event u) (currentEvent st) in
  let current := Js.or eventName (currentEvent st) in
  match u_file u with
  | None =>
      (* [req.file] is undefined: reading [.path] throws, [catch] answers *)
      mkOutcome (mkState (participants st) current)
        (mkResponse 500 []
           (Json (Failure
                    (Js.lit "Cannot read properties of undefined (reading 'path')")))
           true)
        [] [] []
  | Some filePath =>
      let rows := fold_left onData (records (u_parsing u)) [] in
      match broken (u_parsing u) with
      | None =>
          mkOutcome (mkState rows current)
            (mkResponse 200 []
               (Json (UploadOk (List.length rows) current)) true)
            [] [] [filePath]
      | Some m =>
          mkOutcome (mkState (participants st) current)
            (mkResponse 400 [] (Json (Failure m)) true)
            [] [] [filePath]
      end
  end.

(** *** Names (lines 52-54) *)

Definition apiNames (st : state) : outcome :=
  mkOutcome st
    (mkResponse 200 []
       (Json (NamesOk (currentEvent st) (participants st))) true)
    [] [] [].

(** *** The server as a whole *)

Inductive request : Type :=
| Upload (u : submission)
| Names
| Preview (q : query)
| Generate (q : query)
| Email (b : message).

Definition handle (rt : runtime) (st : state) (r : request) : outcome :=
  match r with
  | Upload u => apiUpload st u
  | Names => apiNames st
  | Preview q => apiPreview rt st q
  | Generate q => apiGenerate rt st q
  | Email b => apiEmail rt st b
  end.

(** The states the server can be in: the initial one and those any
    sequence of requests leads to. *)
Inductive reachable : state -> Prop :=
| reach_initial : reachable initial
| reach_handle (rt : runtime) (st : state) (r : request) :
    reachable st -> reachable (after (handle rt st r)).

(** The PDF a handler hands over, if any: the chunks piped into the
    response, or the attachment of the message handed to the transport. *)
Definition delivered (o : outcome) : option (list Pdf.event) :=
  match payload (reply o), outbox o with
  | Piped chunks, _ => Some chunks
  | _, [letter] =>
      match attachments letter with
      | [a] => Some (content a)
      | _ => None
      end
  | _, _ => None
  end.

End Server.

(* ================================================================== *)
(** ** Vocabulary of the specification *)
(* ================================================================== *)

Module Spec.

Import Pdf.

(** *** Reading a rendered page *)

Definition rotated (g : gstate) : bool :=
  match ctm g with [] => false | _ :: _ => true end.

(** A rotation that turns counter-clockwise on the page. *)
Definition counterClockwise (t : transform) : bool :=
  match t with
  | Rotate angle _ _ => negb (Qle_bool 0 angle)
  end.

(** The overlay: text painted through a rotation, or not fully opaque. *)
Definition isOverlay (e : element) : bool :=
  match e with
  | Text _ _ _ _ _ _ g => rotated g || negb (Qeq_bool (opacity g) 1)
  | _ => false
  end.

Definition isOverlayEvent (v : event) : bool :=
  match v with
  | Painted e => isOverlay e
  | _ => false
  end.

(** The text painted at a given anchor, if any. *)
Fixpoint textAt (x y : Q) (l : list event) : option Js.str :=
  match l with
  | [] => None
  | Painted (Text s x' y' _ _ _ _) :: rest =>
      if Qeq_bool x x' && Qeq_bool y y' then Some s else textAt x y rest
  | _ :: rest => textAt x y rest
  end.

(** The event label of a rendered certificate: the text at (0, 270). *)
Definition labelOf (l : list event) : option Js.str := textAt 0 270 l.

(** *** Requests *)

(** The watermark flag each entry point passes to the renderer. *)
Definition watermarkOf (r : Server.request) : bool :=
  match r with
  | Server.Preview _ => true
  | _ => false
  end.

(** The recipient name each entry point passes to the renderer. *)
Definition recipientOf (r : Server.request) : Js.str :=
  match r with
  | Server.Preview q | Server.Generate q =>
      Js.trim (Js.orElse (Server.q_name q) [])
  | Server.Email b => Js.valueOf (Server.m_name b)
  | _ => []
  end.

(** The recipient name as the request carries it. *)
Definition givenName (r : Server.request) : Js.str :=
  match r with
  | Server.Preview q | Server.Generate q => Js.orElse (Server.q_name q) []
  | Server.Email b => Js.orElse (Server.m_name b) []
  | _ => []
  end.

(** The event label as the request carries it. *)
Definition givenEvent (r : Server.request) : option Js.str :=
  match r with
  | Server.Preview q | Server.Generate q => Server.q_event q
  | Server.Email b => Server.m_event b
  | _ => None
  end.

Definition rendering (r : Server.request) : bool :=
  match r with
  | Server.Preview _ | Server.Generate _ | Server.Email _ => true
  | _ => false
  end.

(** The event label each entry point passes to the renderer. *)
Definition requestedLabel (st : Server.state) (r : Server.request) : Js.str :=
  Js.or (Js.orElse (givenEvent r) (Server.currentEvent st)) (Js.lit "Event").

Definition labelFor (st : Server.state) (r : Server.request) : Js.str :=
  match r with
  | Server.Preview _ | Server.Generate _ => Js.trim (requestedLabel st r)
  | Server.Email _ => requestedLabel st r
  | _ => []
  end.

(** The process-wide default as each entry point uses it. *)
Definition defaultLabel (st : Server.state) (r : Server.request) : Js.str :=
  match r with
  | Server.Email _ => Server.currentEvent st
  | _ => Js.trim (Server.currentEvent st)
  end.

(** A file name shown to the client: in the [Content-Disposition] header
    of the response or on an attachment of a message sent. *)
Definition exposes (o : Server.outcome) (file : Js.str) : Prop :=
  In (Server.disposition file) (Server.headers (Server.reply o))
  \/ exists letter a,
       In letter (Server.outbox o)
       /\ In a (Server.attachments letter)
       /\ Server.filename a = file.

(** "Replacing whitespace with underscores": code units that are not
    white space are kept, and each maximal run of white space gives one
    underscore. *)
Definition startsBlank (s : Js.str) : bool :=
  match s with [] => false | c :: _ => Js.isWhiteSpace c end.

Inductive WsReplaced : Js.str -> Js.str -> Prop :=
| wr_nil : WsReplaced [] []
| wr_keep (c : N) (s t : Js.str) :
    Js.isWhiteSpace c = false ->
    WsReplaced s t -> WsReplaced (c :: s) (c :: t)
| wr_run (gap s t : Js.str) :
    gap <> [] -> Js.blank gap = true -> startsBlank s = false ->
    WsReplaced s t -> WsReplaced (gap ++ s) (95%N :: t).

(** A stored roster record: non-empty trimmed name, trimmed email. *)
Definition wellFormed (p : Server.participant) : Prop :=
  Server.name p <> []
  /\ Js.trim (Server.name p) = Server.name p
  /\ Js.trim (Server.email p) = Server.email p.

End Spec.

(* ================================================================== *)
(** ** The certificate layout *)
(* ================================================================== *)

(** The elements [drawCertificate] paints, in the order of the source, with
    the graphics state each one is painted with. *)

Module Layout.

Import Pdf.

Definition options : pageOptions :=
  mkP (Server.W, Server.H) (Js.lit "landscape") 0.

Definition ink (fill stroke : string) : gstate :=
  mkG [] (Js.lit fill) (Js.lit stroke) 1 4.

Definition background : element :=
  Filled [Rect 0 0 Server.W Server.H]
         (mkG [] (Js.lit "#fdfcf7") (Js.lit "black") 1 1).

Definition frame : element :=
  Stroked [Rect 30 30 (Js.minus Server.W 60) (Js.minus Server.H 60)]
          (ink "#fdfcf7" "#222").

Definition dateLine (today : Js.str) : element :=
  Text (Js.lit "Date: " ++ today) 70 (Js.minus Server.H 80) noOptions
       (Js.lit "Helvetica-Oblique") 12 (ink "#333" "#222").

(** What is painted between the frame and the date line. *)
Definition upper (name eventName : Js.str) : list element :=
  [ Filled [] (ink "#222" "#222");
    Text (Js.lit "CERTIFICATE OF PARTICIPATION") 0 80 Server.centered
         (Js.lit "Helvetica-Bold") 26 (ink "#222" "#222");
    Text (Js.lit "This is to certify that") 0 135 Server.centered
         (Js.lit "Helvetica") 16 (ink "#222" "#222");
    Filled [] (ink "#111" "#222");
    Text name 0 175 Server.centered
         (Js.lit "Helvetica-Bold") 48 (ink "#111" "#222");
    Text (Js.lit "has successfully participated in") 0 240 Server.centered
         (Js.lit "Helvetica") 16 (ink "#111" "#222");
    Text eventName 0 270 Server.centered
         (Js.lit "Helvetica-Bold") 22 (ink "#111" "#222");
    Filled [] (ink "#333" "#222") ].

(** What is painted after the date line, the watermark apart. *)
Definition lower : list element :=
  [ Stroked [MoveTo (Js.minus Server.W 250) (Js.minus Server.H 120);
             LineTo (Js.minus Server.W 70) (Js.minus Server.H 120)]
            (ink "#333" "#333");
    Text (Js.lit "Authorized Signature")
         (Js.minus Server.W 250) (Js.minus Server.H 110)
         (mkT (Some (Js.lit "center")) (Some 180))
         (Js.lit "Helvetica") 12 (ink "#333" "#333") ].

Definition sample : element :=
  Text (Js.lit "SAMPLE")
       (Js.minus (Js.over Server.W 2) 250) (Js.minus (Js.over Server.H 2) 60)
       noOptions (Js.lit "Helvetica-Bold") 100
       (mkG [Rotate (-20) (Js.over Server.W 2) (Js.over Server.H 2)]
            (Js.lit "#cccccc") (Js.lit "#333") 0.2 4).

Definition overlay (watermark : bool) : list element :=
  if watermark then [sample] else [].

Definition elements (name eventName : Js.str) (watermark : bool)
    (today : Js.str) : list element :=
  background :: frame :: upper name eventName
  ++ dateLine today :: lower ++ overlay watermark.

(** The document [drawCertificate] leaves. *)
Definition drawn (doc : document) (name eventName : Js.str)
    (watermark : bool) (today : Js.str) : document :=
  mkD (rev (map Painted (elements name eventName watermark today))
       ++ PageAdded options :: events doc)
      (Some options) [] (ink "#333" "#333") []
      (Js.lit (if watermark then "Helvetica-Bold" else "Helvetica"))
      (if watermark then 100 else 12).

(** What a fresh document emits once drawn and ended. *)
Definition rendered (name eventName : Js.str) (watermark : bool)
    (today : Js.str) : list event :=
  PageAdded options
  :: map Painted (elements name eventName watermark today) ++ [Ended].

End Layout.

(* ================================================================== *)
(** ** Sample requests *)
(* ================================================================== *)

Module Sample.

Import Server.

Definition runtime : Server.runtime :=
  mkRuntime (Js.lit "11/2/2026") None None None.

(** A runtime whose document stream fails after three chunks. *)
Definition failing : Server.runtime :=
  mkRuntime (Js.lit "11/2/2026") (Some (3%nat, Js.lit "write EPIPE"))
            None None.

Definition alice : query :=
  mkQuery (Some (Js.lit "Alice Smith")) (Some (Js.lit "Spring Hackathon")).

(** A query with a name and no event. *)
Definition bob : query := mkQuery (Some (Js.lit "Bob")) None.

Definition blankName : Js.str := Js.lit "   ".

(** A message whose name is three spaces. *)
Definition blankLetter : message :=
  mkMessage (Some blankName) (Some (Js.lit "a@b.c")) None.

Definition carol : message :=
  mkMessage (Some (Js.lit "Carol  Ann Jones")) (Some (Js.lit "c@d.e")) None.

(** An upload that names the event with a space on each side. *)
Definition gala : submission :=
  mkSubmission (Some (Js.lit " Gala ")) (Some (Js.lit "uploads/1"))
    (mkParsing [mkRow (Some (Js.lit " Dan ")) (Some (Js.lit " d@e.f "));
                mkRow (Some (Js.lit "  ")) None;
                mkRow None (Some (Js.lit "x@y.z"))]
               None).

(** The same upload, with a parser that fails after its records. *)
Definition garbled : submission :=
  mkSubmission None (Some (Js.lit "uploads/2"))
    (mkParsing (records (u_parsing gala))
               (Some (Js.lit "Invalid Record Length"))).

Definition afterGala : state := after (apiUpload initial gala).

End Sample.

(* ================================================================== *)
(** ** The page pdfkit allocates *)
(* ================================================================== *)

(** How pdfkit reads the options of [addPage] and where a painted element
    lies on the page. *)

Module Page.

Import Pdf.

(** With an array as [size], the width of the page is the first entry
    under the layout 'portrait' and the second entry under any other
    layout; the height is the other entry. *)
Definition dimensions (o : pageOptions) : Q * Q :=
  if Js.eqb (layout o) (Js.lit "portrait") then size o
  else (snd (size o), fst (size o)).

Definition width (o : pageOptions) : Q := fst (dimensions o).
Definition height (o : pageOptions) : Q := snd (dimensions o).

Definition centre (o : pageOptions) : Q * Q :=
  (Js.over (width o) 2, Js.over (height o) 2).

(** The point a painted text is rotated about. *)
Definition pivot (e : element) : option (Q * Q) :=
  match e with
  | Text _ _ _ _ _ _ g =>
      match ctm g with
      | [Rotate _ ox oy] => Some (ox, oy)
      | _ => None
      end
  | _ => None
  end.

(** Whether a rectangle covers the whole page, and whether it lies within
    the page. *)
Definition covers (o : pageOptions) (s : segment) : bool :=
  match s with
  | Rect x y w h =>
      Qle_bool x 0 && Qle_bool y 0
      && Qle_bool (width o) (x + w) && Qle_bool (height o) (y + h)
  | _ => false
  end.

Definition within (o : pageOptions) (s : segment) : bool :=
  match s with
  | Rect x y w h =>
      Qle_bool 0 x && Qle_bool 0 y
      && Qle_bool (x + w) (width o) && Qle_bool (y + h) (height o)
  | _ => false
  end.

(** Calls that add a page, and calls that paint a rectangle. *)
Definition addsPage (v : event) : bool :=
  match v with PageAdded _ => true | _ => false end.

Definition hasRect (p : list segment) : bool :=
  existsb (fun s => match s with Rect _ _ _ _ => true | _ => false end) p.

Definition paintsRect (v : event) : bool :=
  match v with
  | Painted (Filled p _) | Painted (Stroked p _) => hasRect p
  | _ => false
  end.

End Page.

(* ================================================================== *)
(** ** What runs before the handlers *)
(* ================================================================== *)

(** Express and multer hand the handlers more than the handlers' own code
    shows: a query parameter need not be a string, and multer can refuse an
    upload before the handler runs. *)

Module Middleware.

Import Server.









(** [upload.single('file')] with [limits: { fileSize: 5 MiB }] (lines
    22-23): multer either refuses the request with an error (a file over the
    limit, for one), and then the handler does not run and Express answers
    500, or passes it on to the handler. *)
Inductive intake : Type :=
| Refused (error : Js.str)
| Passed (u : submission).

Definition uploadRoute (st : state) (i : intake) : outcome :=
  match i with
  | Refused m => uncaught st m
  | Passed u => apiUpload st u
  end.

(** The current event an upload request leads to. *)
Definition eventAfter (st : state) (i : intake) : Js.str :=
  match i with
  | Refused _ => currentEvent st
  | Passed u =>
      if Js.truthyOpt (u_event u) then Js.valueOf (u_event u)
      else currentEvent st
  end.

End Middleware.

(* ================================================================== *)
(** ** Reading the handlers *)
(* ================================================================== *)

(** Notions used to state what the handlers do beyond the renderer: which
    CSV rows are kept, which routes pipe the document into the response,
    and how a label is passed on. *)

Module Routes.

Import Server.

(** A row is usable when it has a name with a code unit that is not white
    space. *)
Definition usable (row : csvRow) : bool :=
  match r_name row with
  | Some n => negb (Js.blank n)
  | None => false
  end.

(** The roster entry of a usable row. *)
Definition entry (row : csvRow) : participant :=
  mkParticipant (Js.trim (Js.valueOf (r_name row)))
                (Js.trimOrEmpty (r_email row)).

(** The usable rows of a file, in the order of the file. *)
Definition collect (rows : list csvRow) : list participant :=
  map entry (filter usable rows).

(** The routes that pipe the document into the response. *)
Definition piping (r : request) : bool :=
  match r with
  | Preview _ | Generate _ => true
  | _ => false
  end.

(** The requests that can replace the roster: an upload with a file whose
    parsing reaches the end. *)
Definition replaces (r : request) : bool :=
  match r with
  | Upload u =>
      match u_file u, broken (u_parsing u) with
      | Some _, None => true
      | _, _ => false
      end
  | _ => false
  end.

(** The requests that can rename the current event: an upload with a
    non-empty event field. *)
Definition renames (r : request) : bool :=
  match r with
  | Upload u => Js.truthyOpt (u_event u)
  | _ => false
  end.

Definition isEmail (r : request) : bool :=
  match r with
  | Email _ => true
  | _ => false
  end.

Definition present {A : Type} (o : option A) : bool :=
  match o with Some _ => true | None => false end.

(** Whether an email request carries a name and an address. *)
Definition addressed (b : message) : bool :=
  Js.truthyOpt (m_name b) && Js.truthyOpt (m_email b).

(** The label a request asks for, as each route passes it on. *)
Definition asLabel (r : request) (label : Js.str) : Js.str :=
  if isEmail r then label else Js.trim label.

End Routes.

(** Further sample requests. *)

Module Cases.

Import Server.

(** A file that parses and has no usable row. *)
Definition hollow : submission :=
  mkSubmission None (Some (Js.lit "uploads/3"))
    (mkParsing [mkRow (Some (Js.lit "   ")) (Some (Js.lit "a@b.c"));
                mkRow None (Some (Js.lit "x@y.z"));
                mkRow (Some []) None]
               None).

(** An upload without a file that names the event. *)
Definition fileless : submission :=
  mkSubmission (Some (Js.lit "Autumn Fair")) None (mkParsing [] None).

(** A query whose event label is one space. *)
Definition spaced : query :=
  mkQuery (Some (Js.lit " Eve ")) (Some (Js.lit " ")).

Definition dave : message :=
  mkMessage (Some (Js.lit "Dave")) (Some (Js.lit "dave@x.y"))
            (Some (Js.lit " Summit ")).

(** A runtime whose SMTP delivery fails. *)
Definition offline : Server.runtime :=
  mkRuntime (Js.lit "11/2/2026") None (Some (Js.lit "ECONNREFUSED")) None.

Definition populated : state := Sample.afterGala.

(** "Alice Smith" written forty times, 479 code units. *)
Definition longName : Js.str :=
  Js.trim (List.concat (List.repeat (Js.lit "Alice Smith ") 40)).

Definition crowded : query := mkQuery (Some longName) None.



(** An upload multer refuses although it names an event. *)
Definition oversized : Middleware.intake :=
  Middleware.Refused (Js.lit "MulterError: File too large").

End Cases.

(** Closed goals are settled by evaluating both sides. *)
Ltac evaluate := vm_compute; reflexivity.

(* ================================================================== *)
(** ** Facts about the string operations *)
(* ================================================================== *)

Module JsFacts.

Import Js.

Lemma blank_app (a b : str) : blank (a ++ b) = blank a && blank b.
Proof. apply forallb_app. Qed.

Lemma blank_rev (s : str) : blank (rev s) = blank s.
Proof.
  induction s as [|c t IH]; [reflexivity|].
  simpl. rewrite blank_app, IH. simpl.
  rewrite andb_true_r. apply andb_comm.
Qed.

Lemma trimStart_blank (s : str) : blank s = true -> trimStart s = [].
Proof.
  induction s as [|c t IH]; [reflexivity|].
  simpl. intros E. apply andb_prop in E as [Ec Et].
  rewrite Ec. auto.
Qed.

(** A string made of white space only trims to the empty string. *)
Lemma trim_blank (s : str) : blank s = true -> trim s = [].
Proof.
  intros E. unfold trim, trimEnd.
  rewrite (trimStart_blank s E). reflexivity.
Qed.

(** [trimStart] removes a blank prefix and stops at the first code unit
    that is not white space. *)
Lemma trimStart_split (s : str) :
  exists gap, s = gap ++ trimStart s /\ blank gap = true
              /\ Spec.startsBlank (trimStart s) = false.
Proof.
  induction s as [|c t (gap & E & B & S)].
  - exists []. repeat split.
  - simpl. destruct (isWhiteSpace c) eqn:Ec.
    + exists (c :: gap). simpl. rewrite Ec, B. repeat split; auto.
      now rewrite <- E.
    + exists []. simpl. rewrite Ec. repeat split.
Qed.

Lemma trimStart_length (s : str) :
  (List.length (trimStart s) <= List.length s)%nat.
Proof.
  induction s as [|c t IH]; simpl; [lia|].
  destruct (isWhiteSpace c); simpl; lia.
Qed.

Lemma trimStart_fixed (s : str) :
  Spec.startsBlank s = false -> trimStart s = s.
Proof.
  destruct s as [|c t]; [reflexivity|].
  simpl. now intros ->.
Qed.

Lemma trimStart_start (s : str) : Spec.startsBlank (trimStart s) = false.
Proof.
  destruct (trimStart_split s) as (gap & _ & _ & S). exact S.
Qed.

(** [trimEnd] keeps the first code unit of a string that does not start
    with white space. *)
Lemma trimEnd_start (s : str) :
  Spec.startsBlank s = false -> Spec.startsBlank (trimEnd s) = false.
Proof.
  destruct s as [|c t]; [reflexivity|].
  simpl. intros Ec. unfold trimEnd.
  destruct (trimStart_split (rev (c :: t))) as (gap & E & B & _).
  assert (E' : c :: t = rev (trimStart (rev (c :: t))) ++ rev gap).
  { rewrite <- rev_app_distr, <- E. symmetry. apply rev_involutive. }
  destruct (rev (trimStart (rev (c :: t)))) as [|c' t'] eqn:R.
  - reflexivity.
  - simpl in E'. injection E' as -> _. exact Ec.
Qed.

Lemma trim_start (s : str) : Spec.startsBlank (trim s) = false.
Proof. apply trimEnd_start, trimStart_start. Qed.

Lemma trim_end (s : str) : Spec.startsBlank (rev (trim s)) = false.
Proof.
  unfold trim, trimEnd. rewrite rev_involutive. apply trimStart_start.
Qed.

(** Trimming a trimmed string changes nothing. *)
Lemma trim_idempotent (s : str) : trim (trim s) = trim s.
Proof.
  unfold trim at 1.
  rewrite (trimStart_fixed _ (trim_start s)).
  unfold trimEnd.
  rewrite (trimStart_fixed _ (trim_end s)).
  apply rev_involutive.
Qed.

Lemma trimOrEmpty_trimmed (o : option str) :
  trim (trimOrEmpty o) = trimOrEmpty o.
Proof.
  destruct o as [s|]; [|reflexivity].
  unfold trimOrEmpty, or.
  destruct (truthy (trim s)); [apply trim_idempotent|reflexivity].
Qed.

Lemma truthy_nonempty (s : str) : truthy s = true -> s <> [].
Proof. destruct s; [discriminate|discriminate]. Qed.

Lemma or_nonempty (a b : str) : b <> [] -> or a b <> [].
Proof.
  unfold or. destruct a; simpl; [auto|discriminate].
Qed.

Lemma orElse_nonempty (o : option str) (b : str) :
  b <> [] -> orElse o b <> [].
Proof.
  destruct o as [a|]; simpl; [apply or_nonempty|auto].
Qed.

(** An absent or empty value gives way to the default. *)
Lemma orElse_absent (o : option str) (b : str) :
  truthyOpt o = false -> orElse o b = b.
Proof.
  destruct o as [[|c t]|]; simpl; [reflexivity|discriminate|reflexivity].
Qed.

Lemma or_truthy (a b : str) : a <> [] -> or a b = a.
Proof. destruct a; [congruence|reflexivity]. Qed.

(** Inside a run, the replacement behaves as after skipping the run. *)
Lemma replaceRuns_inRun (s : str) :
  replaceRuns true s = replaceRuns false (trimStart s).
Proof.
  induction s as [|c t IH]; [reflexivity|].
  simpl. destruct (isWhiteSpace c) eqn:Ec; [exact IH|].
  simpl. now rewrite Ec.
Qed.

Lemma replaceWhitespace_bounded (n : nat) :
  forall s, (List.length s <= n)%nat ->
            Spec.WsReplaced s (replaceWhitespace s).
Proof.
  unfold replaceWhitespace.
  induction n as [|n IH]; intros s L.
  - destruct s; [constructor|simpl in L; lia].
  - destruct s as [|c t]; [constructor|].
    simpl in L. simpl. destruct (isWhiteSpace c) eqn:Ec.
    + rewrite replaceRuns_inRun.
      destruct (trimStart_split t) as (gap & E & B & S).
      rewrite E at 1.
      change (c :: gap ++ trimStart t) with ((c :: gap) ++ trimStart t).
      apply Spec.wr_run.
      * discriminate.
      * simpl. now rewrite Ec, B.
      * exact S.
      * apply IH. pose proof (trimStart_length t). lia.
    + apply Spec.wr_keep; [exact Ec|]. apply IH. lia.
Qed.

(** [replace(/\s+/g, '_')] replaces white space by underscores. *)
Lemma replaceWhitespace_spec (s : str) :
  Spec.WsReplaced s (replaceWhitespace s).
Proof. apply replaceWhitespace_bounded with (n := List.length s). lia. Qed.

(** When no two code units of white space are adjacent, each of them
    becomes an underscore and the length is kept. *)
Lemma replaceWhitespace_single (s : str) :
  (forall a b c d, s = a ++ c :: d :: b ->
                   isWhiteSpace c = true -> isWhiteSpace d = false) ->
  replaceWhitespace s
  = map (fun c => if isWhiteSpace c then 95%N else c) s.
Proof.
  unfold replaceWhitespace.
  induction s as [|c t IH]; intros A; [reflexivity|].
  simpl. destruct (isWhiteSpace c) eqn:Ec.
  - f_equal. rewrite replaceRuns_inRun.
    destruct t as [|d t']; [reflexivity|].
    assert (Ed : isWhiteSpace d = false)
      by (apply (A [] t' c d); [reflexivity|exact Ec]).
    rewrite trimStart_fixed by (simpl; exact Ed).
    apply IH. intros a b x y E. apply (A (c :: a) b). now rewrite E.
  - f_equal. apply IH. intros a b x y E. apply (A (c :: a) b). now rewrite E.
Qed.

Lemma replaceRuns_clean (s : str) (b : bool) :
  noWhiteSpace (replaceRuns b s) = true.
Proof.
  revert b. induction s as [|c t IH]; intros b; [reflexivity|].
  simpl. destruct (isWhiteSpace c) eqn:Ec.
  - destruct b; [apply IH|]. simpl. apply IH.
  - simpl. rewrite Ec. simpl. apply IH.
Qed.

End JsFacts.

(* ================================================================== *)
(** ** Facts about the renderer *)
(* ================================================================== *)

Module RenderFacts.

Import Pdf Server.

(** [drawCertificate] never throws, whatever document it is given, and
    paints exactly the elements of the layout on a new page. *)
Lemma drawCertificate_drawn (doc : document) (name eventName : Js.str)
    (watermark : bool) (today : Js.str) :
  drawCertificate doc name eventName watermark today
  = Ok (Layout.drawn doc name eventName watermark today).
Proof. destruct watermark; reflexivity. Qed.

Lemma trace_finish_drawn (name eventName : Js.str) (watermark : bool)
    (today : Js.str) :
  trace (finish (Layout.drawn create name eventName watermark today))
  = Layout.rendered name eventName watermark today.
Proof. destruct watermark; reflexivity. Qed.

(** Without a stream failure, a fresh document that is drawn and ended
    emits the rendered layout. *)
Lemma emit_drawn (name eventName : Js.str) (watermark : bool)
    (today : Js.str) :
  emit None (finish (Layout.drawn create name eventName watermark today))
  = Emitted (Layout.rendered name eventName watermark today).
Proof. unfold emit. now rewrite trace_finish_drawn. Qed.

(** The rendering handlers leave the module state alone. *)
Lemma rendering_keeps_state (rt : runtime) (st : state) (r : request) :
  Spec.rendering r = true -> after (handle rt st r) = st.
Proof.
  destruct r as [u| |q|q|b]; simpl; try discriminate; intros _.
  - unfold apiPreview. rewrite drawCertificate_drawn.
    destruct (negb _); [reflexivity|].
    unfold pipeToResponse. now destruct (emit _ _).
  - unfold apiGenerate. rewrite drawCertificate_drawn.
    destruct (negb (Js.truthy _)); [reflexivity|].
    destruct (negb (Js.validHeaderValue _)); [reflexivity|].
    unfold pipeToResponse. now destruct (emit _ _).
  - unfold apiEmail. rewrite drawCertificate_drawn.
    destruct (_ || _); [reflexivity|].
    destruct (emit _ _); [|reflexivity].
    now destruct (smtpFault rt).
Qed.

(** What a handler delivers when the document stream does not fail. *)
Lemma delivered_rendered (rt : runtime) (st : state) (r : request)
    (chunks : list event) :
  docFault rt = None ->
  delivered (handle rt st r) = Some chunks ->
  chunks = Layout.rendered (Spec.recipientOf r) (Spec.labelFor st r)
                           (Spec.watermarkOf r) (today rt).
Proof.
  intros F.
  destruct r as [u| |q|q|b]; simpl.
  - unfold apiUpload.
    destruct (u_file u); [destruct (broken _)|]; discriminate.
  - discriminate.
  - unfold apiPreview. rewrite drawCertificate_drawn.
    destruct (negb _); [discriminate|].
    unfold pipeToResponse. rewrite F, emit_drawn.
    unfold delivered. simpl. now intros [= <-].
  - unfold apiGenerate. rewrite drawCertificate_drawn.
    destruct (negb (Js.truthy _)); [discriminate|].
    destruct (negb (Js.validHeaderValue _)); [discriminate|].
    unfold pipeToResponse. rewrite F, emit_drawn.
    unfold delivered. simpl. now intros [= <-].
  - unfold apiEmail. rewrite drawCertificate_drawn.
    destruct (_ || _); [discriminate|].
    rewrite F, emit_drawn.
    destruct (smtpFault rt); unfold delivered; simpl; now intros [= <-].
Qed.

End RenderFacts.

(* ================================================================== *)
(** ** Input validation *)
(* ================================================================== *)

Module Validation.

Import Pdf Server.

(** The preview handler refuses a name that is empty or white space only:
    it answers 400 and creates no document. *)
Lemma preview_refuses_blank_name (rt : runtime) (st : state) (q : query) :
  Js.blank (Js.orElse (q_name q) []) = true ->
  apiPreview rt st q = missingName st.
Proof.
  intros B. unfold apiPreview.
  now rewrite (JsFacts.trim_blank _ B).
Qed.

(** So does the download handler. *)
Lemma generate_refuses_blank_name (rt : runtime) (st : state) (q : query) :
  Js.blank (Js.orElse (q_name q) []) = true ->
  apiGenerate rt st q = missingName st.
Proof.
  intros B. unfold apiGenerate.
  now rewrite (JsFacts.trim_blank _ B).
Qed.

(** The email handler refuses an absent or empty name. *)
Lemma email_refuses_empty_name (rt : runtime) (st : state) (b : message) :
  Js.truthyOpt (m_name b) = false ->
  status (reply (apiEmail rt st b)) = 400%Z
  /\ delivered (apiEmail rt st b) = None
  /\ outbox (apiEmail rt st b) = [].
Proof.
  intros E. unfold apiEmail. rewrite E. simpl. repeat split.
Qed.

(** C1, at the input where the code departs from it: the email handler
    tests the name without trimming it, so a name of three spaces passes
    the test, a certificate is drawn with that name, and the message is
    sent with the document attached; the answer is 200. *)
Theorem email_draws_blank_name :
  Js.blank Sample.blankName = true
  /\ status (reply (apiEmail Sample.runtime initial Sample.blankLetter)) = 200%Z
  /\ payload (reply (apiEmail Sample.runtime initial Sample.blankLetter))
     = Json (MessageOk (Js.lit "Email sent"))
  /\ exists chunks,
       delivered (apiEmail Sample.runtime initial Sample.blankLetter)
       = Some chunks
       /\ Spec.textAt 0 175 chunks = Some Sample.blankName
       /\ chunks = Layout.rendered Sample.blankName
                                   (Js.lit "Community Event") false
                                   (Js.lit "11/2/2026").
Proof.
  split; [evaluate|]. split; [evaluate|]. split; [evaluate|].
  eexists. split; [evaluate|]. split; evaluate.
Qed.

End Validation.

(* ================================================================== *)
(** ** Stream failures *)
(* ================================================================== *)

Module Failures.

Import Pdf Server.

(** The email handler reports a failure of the document stream: the
    promise rejects, the answer is 500 with the message, nothing is sent. *)
Lemma email_reports_stream_error (rt : runtime) (st : state) (b : message)
    (k : nat) (m : Js.str) :
  docFault rt = Some (k, m) ->
  Js.truthyOpt (m_name b) = true -> Js.truthyOpt (m_email b) = true ->
  apiEmail rt st b = failure500 st m.
Proof.
  intros F N E. unfold apiEmail.
  rewrite N, E, RenderFacts.drawCertificate_drawn, F. reflexivity.
Qed.

(** The handlers that pipe the document into the response answer 200 with
    what was emitted before the failure, leave the response open, and print
    the error. *)
Lemma piped_stream_error (rt : runtime) (st : state)
    (hs : list (string * Js.str)) (doc : document) (k : nat) (m : Js.str) :
  docFault rt = Some (k, m) ->
  pipeToResponse rt st hs doc
  = mkOutcome st
      (mkResponse 200 hs (Piped (firstn k (trace (finish doc)))) false)
      [m] [] [].
Proof. intros F. unfold pipeToResponse, emit. now rewrite F. Qed.

End Failures.

(* ================================================================== *)
(** ** The watermark overlay *)
(* ================================================================== *)

Module Watermark.

Import Pdf Server.

(** C5.  The document rendered with the watermark is the document rendered
    without it plus one overlay element, painted just before the end:
    every other event is the same and at the same place in the sequence,
    and removing the overlay from the first gives the second. *)
Theorem watermark_toggle (name eventName today : Js.str) :
  exists d0 d1 w,
    drawCertificate create name eventName false today = Ok d0
    /\ drawCertificate create name eventName true today = Ok d1
    /\ Spec.isOverlay w = true
    /\ trace (finish d0) = trace d0 ++ [Ended]
    /\ trace (finish d1) = trace d0 ++ [Painted w; Ended]
    /\ existsb Spec.isOverlayEvent (trace (finish d0)) = false
    /\ filter (fun v => negb (Spec.isOverlayEvent v)) (trace (finish d1))
       = trace (finish d0).
Proof.
  exists (Layout.drawn create name eventName false today),
         (Layout.drawn create name eventName true today),
         Layout.sample.
  split; [apply RenderFacts.drawCertificate_drawn|].
  split; [apply RenderFacts.drawCertificate_drawn|].
  repeat (split; [reflexivity|]). reflexivity.
Qed.

(** C6.  The watermark block leaves the graphics state and the save stack
    as the call without watermark leaves them, with no rotation and full
    opacity; what a call paints and the state it leaves do not depend on
    the document it is given, hence not on an earlier call; and a rendering
    request leaves the module state as it found it, so that it cannot change
    the outcome of any later request. *)
Theorem no_state_leak (rt : runtime) (st : state) (r : request)
    (doc doc' : document) (name eventName today : Js.str) :
  Spec.rendering r = true ->
  (exists d0 d1,
      drawCertificate doc name eventName false today = Ok d0
      /\ drawCertificate doc name eventName true today = Ok d1
      /\ gs d1 = gs d0 /\ stack d1 = stack d0
      /\ ctm (gs d1) = [] /\ opacity (gs d1) = 1)
  /\ (forall watermark, exists d d' painted,
        drawCertificate doc name eventName watermark today = Ok d
        /\ drawCertificate doc' name eventName watermark today = Ok d'
        /\ events d = painted ++ events doc
        /\ events d' = painted ++ events doc'
        /\ gs d = gs d' /\ stack d = stack d')
  /\ (forall rt' r',
        handle rt' (after (handle rt st r)) r' = handle rt' st r').
Proof.
  intros R. split; [|split].
  - exists (Layout.drawn doc name eventName false today),
           (Layout.drawn doc name eventName true today).
    split; [apply RenderFacts.drawCertificate_drawn|].
    split; [apply RenderFacts.drawCertificate_drawn|].
    repeat split.
  - intros watermark.
    exists (Layout.drawn doc name eventName watermark today),
           (Layout.drawn doc' name eventName watermark today),
           (rev (map Painted (Layout.elements name eventName watermark today))
            ++ [PageAdded Layout.options]).
    split; [apply RenderFacts.drawCertificate_drawn|].
    split; [apply RenderFacts.drawCertificate_drawn|].
    destruct watermark; repeat split.
  - intros rt' r'. now rewrite (RenderFacts.rendering_keeps_state rt st r R).
Qed.

Lemma no_state_leak_witness :
  handle Sample.runtime
         (after (handle Sample.runtime initial (Preview Sample.alice)))
         (Generate Sample.bob)
  = handle Sample.runtime initial (Generate Sample.bob).
Proof.
  exact (proj2 (proj2
           (@no_state_leak Sample.runtime initial (Preview Sample.alice)
              create create (Js.lit "Alice Smith") (Js.lit "Gala")
              (Js.lit "11/2/2026") eq_refl))
           Sample.runtime (Generate Sample.bob)).
Defined.

(** C2, at an input where the code departs from it.  For the preview of
    "Bob" the overlay is the last element painted, just before the end of
    the document, and it is the text "SAMPLE" in Helvetica-Bold at 100
    points, colour #cccccc, opacity 0.2, turned by -20 degrees, which is
    counter-clockwise.  But the rotation is about (421, 297.5), the centre
    of a page 842 wide and 595 high, whereas the page pdfkit allocates for
    the size [842, 595] under the layout 'landscape' is 595 wide and 842
    high, with its centre at (297.5, 421). *)
Theorem overlay_pivot_misses_centre :
  delivered (handle Sample.runtime initial (Preview Sample.bob))
  = Some (Layout.rendered (Js.lit "Bob") (Js.lit "Community Event") true
                          (Js.lit "11/2/2026"))
  /\ nth_error (Layout.rendered (Js.lit "Bob") (Js.lit "Community Event")
                                true (Js.lit "11/2/2026")) 14
     = Some (Painted Layout.sample)
  /\ nth_error (Layout.rendered (Js.lit "Bob") (Js.lit "Community Event")
                                true (Js.lit "11/2/2026")) 15
     = Some Ended
  /\ Layout.sample
     = Text (Js.lit "SAMPLE") 171 (475 # 2) noOptions
            (Js.lit "Helvetica-Bold") 100
            (mkG [Rotate (-20) 421 (595 # 2)]
                 (Js.lit "#cccccc") (Js.lit "#333") 0.2 4)
  /\ Spec.counterClockwise (Rotate (-20) 421 (595 # 2)) = true
  /\ Page.pivot Layout.sample = Some (421, 595 # 2)
  /\ Page.dimensions Layout.options = (595, 842)
  /\ Page.centre Layout.options = (595 # 2, 421)
  /\ Page.pivot Layout.sample <> Some (Page.centre Layout.options).
Proof.
  repeat (split; [evaluate|]). vm_compute. discriminate.
Qed.

End Watermark.

(* ================================================================== *)
(** ** Order of drawing *)
(* ================================================================== *)

Module Order.

Import Pdf Server.

(** C3, at an input where the code departs from it.  For the preview of
    a name of 479 code units the code makes the same calls as for any other
    name: it adds one page, fills the background and strokes the frame once,
    and then hands the whole name to one [text] call at (0, 175) with the
    alignment as its only option; no later call adds a page or paints a
    rectangle.  So a page that pdfkit adds while it lays the name out gets
    neither background nor frame.  The page itself is 595 wide and 842 high:
    the rectangle filled as background does not cover it, and the rectangle
    stroked as frame is not within it. *)
Theorem long_name_gets_one_background :
  List.length Cases.longName = 479%nat
  /\ delivered (handle Sample.runtime initial (Preview Cases.crowded))
     = Some (Layout.rendered Cases.longName (Js.lit "Community Event") true
                             (Js.lit "11/2/2026"))
  /\ (exists rest,
        Layout.rendered Cases.longName (Js.lit "Community Event") true
                        (Js.lit "11/2/2026")
        = PageAdded Layout.options :: Painted Layout.background
          :: Painted Layout.frame :: rest
        /\ existsb Page.addsPage rest = false
        /\ existsb Page.paintsRect rest = false
        /\ nth_error rest 4
           = Some (Painted (Text Cases.longName 0 175 centered
                                 (Js.lit "Helvetica-Bold") 48
                                 (Layout.ink "#111" "#222"))))
  /\ Page.dimensions Layout.options = (595, 842)
  /\ Page.covers Layout.options (Rect 0 0 W H) = false
  /\ Page.within Layout.options (Rect 30 30 782 535) = false
  /\ Layout.background = Filled [Rect 0 0 W H]
                                (mkG [] (Js.lit "#fdfcf7") (Js.lit "black")
                                     1 1)
  /\ Layout.frame = Stroked [Rect 30 30 782 535]
                            (Layout.ink "#fdfcf7" "#222").
Proof.
  split; [evaluate|]. split; [evaluate|].
  split; [eexists; repeat (split; [evaluate|]); evaluate|].
  repeat (split; [evaluate|]). evaluate.
Qed.

(** C7.  Two renderings of the same name, event label and watermark flag
    are the same sequence of events up to the text of the date line, which
    sits at the same place with the same position, font and colour; when
    the date strings agree the two renderings are equal.  What a handler
    delivers depends on the runtime through the date string only. *)
Theorem deterministic_modulo_date (name eventName : Js.str)
    (watermark : bool) (t1 t2 : Js.str) :
  (exists d1 d2 before rest x y o f n g,
      drawCertificate create name eventName watermark t1 = Ok d1
      /\ drawCertificate create name eventName watermark t2 = Ok d2
      /\ trace (finish d1)
         = before ++ Painted (Text (Js.lit "Date: " ++ t1) x y o f n g) :: rest
      /\ trace (finish d2)
         = before ++ Painted (Text (Js.lit "Date: " ++ t2) x y o f n g) :: rest)
  /\ (forall rt1 rt2 st r c1 c2,
        today rt1 = t1 -> today rt2 = t2 ->
        docFault rt1 = None -> docFault rt2 = None ->
        delivered (handle rt1 st r) = Some c1 ->
        delivered (handle rt2 st r) = Some c2 ->
        t1 = t2 -> c1 = c2).
Proof.
  split.
  - exists (Layout.drawn create name eventName watermark t1),
           (Layout.drawn create name eventName watermark t2),
           (PageAdded Layout.options
            :: map Painted (Layout.background :: Layout.frame
                            :: Layout.upper name eventName)),
           (map Painted (Layout.lower ++ Layout.overlay watermark)
            ++ [Ended]).
    do 6 eexists.
    split; [apply RenderFacts.drawCertificate_drawn|].
    split; [apply RenderFacts.drawCertificate_drawn|].
    rewrite !RenderFacts.trace_finish_drawn.
    destruct watermark; split; reflexivity.
  - intros rt1 rt2 st r c1 c2 T1 T2 F1 F2 D1 D2 E.
    rewrite (RenderFacts.delivered_rendered rt1 st r F1 D1),
            (RenderFacts.delivered_rendered rt2 st r F2 D2).
    congruence.
Qed.

Lemma deterministic_modulo_date_witness :
  Layout.rendered (Js.lit "Bob") (Js.lit "Community Event") false
                  (Js.lit "11/2/2026")
  = Layout.rendered (Js.lit "Bob") (Js.lit "Community Event") false
                    (Js.lit "11/2/2026").
Proof.
  refine (proj2 (deterministic_modulo_date (Js.lit "Bob")
                   (Js.lit "Community Event") false
                   (Js.lit "11/2/2026") (Js.lit "11/2/2026"))
            Sample.runtime
            (mkRuntime (Js.lit "11/2/2026") None (Some (Js.lit "busy")) None)
            initial (Generate Sample.bob)
            (Layout.rendered (Js.lit "Bob") (Js.lit "Community Event") false
                             (Js.lit "11/2/2026"))
            (Layout.rendered (Js.lit "Bob") (Js.lit "Community Event") false
                             (Js.lit "11/2/2026"))
            _ _ _ _ _ _ _); vm_compute; reflexivity.
Defined.

End Order.

(* ================================================================== *)
(** ** The roster and the current event *)
(* ================================================================== *)

Module Roster.

Import Pdf Server.

Lemma onData_wellFormed (rows : list participant) (row : csvRow) :
  Forall Spec.wellFormed rows -> Forall Spec.wellFormed (onData rows row).
Proof.
  intros W. unfold onData.
  destruct (r_name row) as [n|]; [|exact W].
  destruct (Js.truthy n && Js.truthy (Js.trim n)) eqn:E; [|exact W].
  apply andb_prop in E as [_ E].
  apply Forall_app. split; [exact W|].
  constructor; [|constructor].
  repeat split; simpl.
  - now apply JsFacts.truthy_nonempty.
  - apply JsFacts.trim_idempotent.
  - apply JsFacts.trimOrEmpty_trimmed.
Qed.

Lemma collected_wellFormed (recs : list csvRow) :
  forall rows, Forall Spec.wellFormed rows ->
               Forall Spec.wellFormed (fold_left onData recs rows).
Proof.
  induction recs as [|row recs IH]; intros rows W; [exact W|].
  simpl. apply IH, onData_wellFormed, W.
Qed.

Lemma upload_event_nonempty (st : state) (u : submission) :
  currentEvent st <> [] -> currentEvent (after (apiUpload st u)) <> [].
Proof.
  intros C. unfold apiUpload.
  destruct (u_file u); [destruct (broken _)|];
    simpl; now apply JsFacts.or_nonempty.
Qed.

(** In every state the server can reach, the current event is not empty and
    every roster record is well formed. *)
Lemma reachable_invariant (st : state) :
  reachable st ->
  currentEvent st <> [] /\ Forall Spec.wellFormed (participants st).
Proof.
  induction 1 as [|rt st r R [C W]].
  - split; [discriminate|constructor].
  - destruct r as [u| |q|q|b];
      try (rewrite RenderFacts.rendering_keeps_state by reflexivity;
           now split).
    + split; [now apply upload_event_nonempty|].
      simpl. unfold apiUpload.
      destruct (u_file u); [destruct (broken _)|]; simpl; auto.
      apply collected_wellFormed. constructor.
    + now split.
Qed.

Lemma reachable_invariant_event (st : state) :
  reachable st -> currentEvent st <> [].
Proof. intros R. apply (reachable_invariant R). Qed.

(** C10.  An upload replaces the roster only when a file came and the
    parser reached the end of it; the new roster is then what the records
    gave, every record of it with a non-empty trimmed name and a trimmed
    email.  When the parser fails, or no file came, the roster is the one
    stored before and the answer is an error (400 with the parser's
    message, 500 without a file). *)
Theorem upload_atomic (st : state) (u : submission) :
  reachable st ->
  Forall Spec.wellFormed (participants (after (apiUpload st u)))
  /\ match u_file u, broken (u_parsing u) with
     | Some _, None =>
         participants (after (apiUpload st u))
         = fold_left onData (records (u_parsing u)) []
         /\ status (reply (apiUpload st u)) = 200%Z
     | Some _, Some m =>
         participants (after (apiUpload st u)) = participants st
         /\ status (reply (apiUpload st u)) = 400%Z
         /\ payload (reply (apiUpload st u)) = Json (Failure m)
     | None, _ =>
         participants (after (apiUpload st u)) = participants st
         /\ status (reply (apiUpload st u)) = 500%Z
     end.
Proof.
  intros R. split.
  - apply (reachable_invariant (reach_handle (Sample.runtime) (Upload u) R)).
  - unfold apiUpload.
    destruct (u_file u); [destruct (broken _)|]; simpl; repeat split.
Qed.

Lemma upload_atomic_witness :
  Forall Spec.wellFormed
    (participants (after (apiUpload Sample.afterGala Sample.garbled)))
  /\ participants (after (apiUpload Sample.afterGala Sample.garbled))
     = participants Sample.afterGala
     /\ status (reply (apiUpload Sample.afterGala Sample.garbled)) = 400%Z
     /\ payload (reply (apiUpload Sample.afterGala Sample.garbled))
        = Json (Failure (Js.lit "Invalid Record Length")).
Proof.
  exact (upload_atomic Sample.garbled
           (reach_handle Sample.runtime (Upload Sample.gala) reach_initial)).
Defined.

End Roster.

(* ================================================================== *)
(** ** The default event label *)
(* ================================================================== *)

Module EventLabel.

Import Pdf Server.

Lemma labelOf_rendered (name eventName today : Js.str) (watermark : bool) :
  Spec.labelOf (Layout.rendered name eventName watermark today)
  = Some eventName.
Proof. destruct watermark; reflexivity. Qed.

Lemma delivered_rendering (rt : runtime) (st : state) (r : request)
    (chunks : list event) :
  delivered (handle rt st r) = Some chunks -> Spec.rendering r = true.
Proof.
  destruct r as [u| |q|q|b]; simpl; try reflexivity; try discriminate.
  unfold apiUpload.
  destruct (u_file u); [destruct (broken _)|]; discriminate.
Qed.

(** With no event in the request, the label asked for is the current
    event, which is never empty. *)
Lemma requestedLabel_default (st : state) (r : request) :
  reachable st -> Js.truthyOpt (Spec.givenEvent r) = false ->
  Spec.requestedLabel st r = currentEvent st.
Proof.
  intros R A. unfold Spec.requestedLabel.
  rewrite (JsFacts.orElse_absent _ _ A).
  apply JsFacts.or_truthy, (Roster.reachable_invariant_event R).
Qed.

(** C8 as stated fails: after an upload that names the event " Gala ", a
    preview request without event draws the label "Gala", which is not the
    current event of the server. *)
Lemma preview_trims_default_label :
  reachable Sample.afterGala
  /\ Js.truthyOpt (Spec.givenEvent (Preview Sample.bob)) = false
  /\ currentEvent Sample.afterGala = Js.lit " Gala "
  /\ option_map Spec.labelOf
       (delivered (handle Sample.runtime Sample.afterGala
                          (Preview Sample.bob)))
     = Some (Some (Js.lit "Gala"))
  /\ option_map Spec.labelOf
       (delivered (handle Sample.runtime Sample.afterGala
                          (Preview Sample.bob)))
     <> Some (Some (currentEvent Sample.afterGala)).
Proof.
  split; [exact (reach_handle Sample.runtime (Upload Sample.gala)
                   reach_initial)|].
  split; [evaluate|]. split; [evaluate|]. split; [evaluate|].
  vm_compute. discriminate.
Qed.

(** C8, amended.  In a reachable state, when the request carries no event
    label or an empty one and the stream does not fail, the label drawn on
    the delivered certificate is the current event of the server: with
    leading and trailing white space removed in the preview and download
    handlers, as stored in the email handler. *)
Theorem default_event_label (rt : runtime) (st : state) (r : request)
    (chunks : list event) :
  reachable st ->
  Js.truthyOpt (Spec.givenEvent r) = false ->
  docFault rt = None ->
  delivered (handle rt st r) = Some chunks ->
  Spec.labelOf chunks = Some (Spec.defaultLabel st r).
Proof.
  intros R A F D.
  pose proof (delivered_rendering rt st r D) as G.
  rewrite (RenderFacts.delivered_rendered rt st r F D), labelOf_rendered.
  f_equal.
  destruct r as [u| |q|q|b]; try discriminate G; simpl;
    now rewrite (requestedLabel_default _ R A).
Qed.

Lemma default_event_label_witness :
  Spec.labelOf (Layout.rendered (Js.lit "Bob") (Js.lit "Gala") true
                                (Js.lit "11/2/2026"))
  = Some (Js.trim (Js.lit " Gala ")).
Proof.
  refine (@default_event_label Sample.runtime Sample.afterGala
            (Preview Sample.bob)
            (Layout.rendered (Js.lit "Bob") (Js.lit "Gala") true
                             (Js.lit "11/2/2026"))
            (reach_handle Sample.runtime (Upload Sample.gala) reach_initial)
            _ _ _); vm_compute; reflexivity.
Defined.

End EventLabel.

(* ================================================================== *)
(** ** File names *)
(* ================================================================== *)

Module Filename.

Import Pdf Server.

Lemma disposition_injective (a b : Js.str) :
  disposition a = disposition b -> a = b.
Proof.
  unfold disposition. intros [= E].
  now apply app_inv_tail in E.
Qed.

Lemma nothing_exposed (st : state) (resp : response) (logs : list Js.str)
    (files : list Js.str) (file : Js.str) :
  headers resp = [] ->
  ~ Spec.exposes (mkOutcome st resp logs [] files) file.
Proof.
  intros E [H | (letter & a & H & _)]; simpl in H; [|exact H].
  rewrite E in H. exact H.
Qed.

Lemma piped_exposes (rt : runtime) (st : state)
    (hs : list (string * Js.str)) (doc : document) (file : Js.str) :
  Spec.exposes (pipeToResponse rt st hs doc) file ->
  In (disposition file) hs.
Proof.
  unfold pipeToResponse.
  destruct (emit _ _); intros [H | (letter & a & H & _)];
    simpl in H; solve [exact H | contradiction].
Qed.

(** Every file name a handler shows is the certificate file name of the
    recipient it renders. *)
Lemma exposed_is_certificateFilename (rt : runtime) (st : state)
    (r : request) (file : Js.str) :
  Spec.exposes (handle rt st r) file ->
  file = certificateFilename (Spec.recipientOf r).
Proof.
  destruct r as [u| |q|q|b]; simpl.
  - unfold apiUpload.
    destruct (u_file u); [destruct (broken _)|];
      intros X; now apply nothing_exposed in X.
  - intros X. now apply nothing_exposed in X.
  - unfold apiPreview. rewrite RenderFacts.drawCertificate_drawn.
    destruct (negb _).
    + intros X. now apply nothing_exposed in X.
    + intros X. apply piped_exposes in X.
      destruct X as [X | []]. discriminate X.
  - unfold apiGenerate. rewrite RenderFacts.drawCertificate_drawn.
    destruct (negb (Js.truthy _)).
    + intros X. now apply nothing_exposed in X.
    + destruct (negb (Js.validHeaderValue _)).
      * intros X. now apply nothing_exposed in X.
      * intros X. apply piped_exposes in X.
        destruct X as [X | [X | []]]; [discriminate X|].
        symmetry. now apply disposition_injective.
  - unfold apiEmail. rewrite RenderFacts.drawCertificate_drawn.
    destruct (_ || _).
    + intros X. now apply nothing_exposed in X.
    + destruct (emit _ _).
      * destruct (smtpFault rt);
          (intros [H | (letter & a & H1 & H2 & H3)]; simpl in *;
           [contradiction|];
           destruct H1 as [<- | []]; simpl in H2;
           destruct H2 as [<- | []]; now subst file).
      * intros X. now apply nothing_exposed in X.
Qed.

(** C9.  Every file name shown for a document, in the download header or
    on the email attachment, is "Certificate_", then the recipient name
    with each run of white space replaced by one underscore (so that no
    white space is left), then ".pdf"; and whenever the download or email
    handler delivers a document it shows that name. *)
Theorem filename_rule (rt : runtime) (st : state) (r : request) :
  (forall file,
      Spec.exposes (handle rt st r) file ->
      exists t,
        Spec.WsReplaced (Spec.recipientOf r) t
        /\ Js.noWhiteSpace t = true
        /\ file = Js.lit "Certificate_" ++ t ++ Js.lit ".pdf")
  /\ (forall chunks,
        delivered (handle rt st r) = Some chunks ->
        Spec.watermarkOf r = false ->
        Spec.exposes (handle rt st r)
                     (certificateFilename (Spec.recipientOf r))).
Proof.
  split.
  - intros file X.
    exists (Js.replaceWhitespace (Spec.recipientOf r)).
    split; [apply JsFacts.replaceWhitespace_spec|].
    split; [apply JsFacts.replaceRuns_clean|].
    exact (exposed_is_certificateFilename rt st r X).
  - intros chunks D Wm.
    destruct r as [u| |q|q|b]; simpl in *; try discriminate.
    + exfalso. revert D. unfold apiUpload.
      destruct (u_file u); [destruct (broken _)|]; discriminate.
    + revert D. unfold apiGenerate.
      rewrite RenderFacts.drawCertificate_drawn.
      destruct (negb (Js.truthy _)); [discriminate|].
      destruct (negb (Js.validHeaderValue _)); [discriminate|]. intros _.
      left. unfold pipeToResponse.
      destruct (emit _ _); simpl; auto.
    + revert D. unfold apiEmail.
      rewrite RenderFacts.drawCertificate_drawn.
      destruct (_ || _); [discriminate|].
      destruct (emit _ _); [|discriminate].
      destruct (smtpFault rt); intros _;
        (right; eexists; eexists; simpl;
         split; [left; reflexivity|]; split; [left; reflexivity|];
         reflexivity).
Qed.

Lemma filename_rule_witness :
  Spec.exposes (handle Sample.runtime initial (Email Sample.carol))
               (Js.lit "Certificate_Carol_Ann_Jones.pdf").
Proof.
  refine (proj2 (filename_rule Sample.runtime initial (Email Sample.carol))
            (Layout.rendered (Js.lit "Carol  Ann Jones")
                             (Js.lit "Community Event") false
                             (Js.lit "11/2/2026"))
            _ _); vm_compute; reflexivity.
Defined.

End Filename.

(* ================================================================== *)
(** ** More on the string operations *)
(* ================================================================== *)

Module StringsMore.

Import Js.

Lemma trimStart_truthy (s : str) : truthy (trimStart s) = negb (blank s).
Proof.
  induction s as [|c t IH]; [reflexivity|].
  simpl. destruct (isWhiteSpace c); [exact IH|reflexivity].
Qed.

Lemma blank_trimStart (s : str) : blank (trimStart s) = blank s.
Proof.
  induction s as [|c t IH]; [reflexivity|].
  simpl. destruct (isWhiteSpace c) eqn:E; [exact IH|].
  simpl. now rewrite E.
Qed.

Lemma truthy_rev (s : str) : truthy (rev s) = truthy s.
Proof.
  destruct s as [|c t]; [reflexivity|].
  simpl. now destruct (rev t).
Qed.

(** Trimming leaves something exactly when the string is not blank. *)
Lemma trim_truthy (s : str) : truthy (trim s) = negb (blank s).
Proof.
  unfold trim, trimEnd.
  now rewrite truthy_rev, trimStart_truthy, JsFacts.blank_rev,
    blank_trimStart.
Qed.

Lemma nonblank_truthy (s : str) : blank s = false -> truthy s = true.
Proof. destruct s; [discriminate|reflexivity]. Qed.

Lemma trim_nonblank (s : str) :
  truthy (trim s) = true -> blank (trim s) = false.
Proof.
  intros T. rewrite <- (JsFacts.trim_idempotent s) in T.
  rewrite trim_truthy in T. now destruct (blank (trim s)).
Qed.

Lemma replaceRuns_length (s : str) (b : bool) :
  (List.length (replaceRuns b s) <= List.length s)%nat.
Proof.
  revert b. induction s as [|c t IH]; intros b; [simpl; lia|].
  simpl. destruct (isWhiteSpace c).
  - destruct b; simpl.
    + specialize (IH true). lia.
    + specialize (IH true). lia.
  - simpl. specialize (IH false). lia.
Qed.

Lemma replaceRuns_clean_fixed (s : str) :
  noWhiteSpace s = true -> replaceRuns false s = s.
Proof.
  induction s as [|c t IH]; [reflexivity|].
  simpl. destruct (isWhiteSpace c); [discriminate|].
  simpl. intros N. now rewrite IH.
Qed.

Lemma existsb_firstn_false {A : Type} (p : A -> bool) (l : list A) :
  existsb p l = false -> forall k, existsb p (firstn k l) = false.
Proof.
  induction l as [|a l IH]; intros E k.
  - now destruct k.
  - destruct k; [reflexivity|].
    simpl in *. apply orb_false_iff in E as [Ea El].
    now rewrite Ea, IH.
Qed.

End StringsMore.

(* ================================================================== *)
(** ** Uploads and the module state *)
(* ================================================================== *)

Module Uploads.

Import Pdf Server.

(** The ['data'] listener keeps a row exactly when it is usable. *)
Lemma onData_usable (rows : list participant) (row : csvRow) :
  onData rows row
  = rows ++ (if Routes.usable row then [Routes.entry row] else []).
Proof.
  unfold onData, Routes.usable, Routes.entry.
  destruct (r_name row) as [n|]; [|now rewrite app_nil_r].
  rewrite StringsMore.trim_truthy. simpl.
  destruct (Js.blank n) eqn:B; simpl.
  - now rewrite andb_false_r, app_nil_r.
  - now rewrite (StringsMore.nonblank_truthy _ B).
Qed.

Lemma collected (recs : list csvRow) :
  forall rows, fold_left onData recs rows = rows ++ Routes.collect recs.
Proof.
  induction recs as [|row recs IH]; intros rows.
  - simpl. now rewrite app_nil_r.
  - simpl. rewrite IH, onData_usable. unfold Routes.collect. simpl.
    destruct (Routes.usable row); simpl.
    + now rewrite <- app_assoc.
    + now rewrite app_nil_r.
Qed.

Lemma upload_event_given (st : state) (u : submission) :
  Js.truthyOpt (u_event u) = true ->
  currentEvent (after (apiUpload st u)) = Js.valueOf (u_event u).
Proof.
  intros T. unfold apiUpload.
  destruct (u_event u) as [[|c t]|]; try discriminate.
  destruct (u_file u); [destruct (broken _)|]; reflexivity.
Qed.

(** X1.  After an upload request the current event is unchanged when
    multer refuses the request, since the handler does not run.  When the
    handler runs, the current event is the event field of the request if
    that field is present and not empty, and unchanged otherwise; this holds
    whether the file was parsed, the parser failed or no file came. *)
Theorem upload_sets_event (st : state) (i : Middleware.intake) :
  currentEvent (after (Middleware.uploadRoute st i))
  = Middleware.eventAfter st i.
Proof.
  destruct i as [m|u]; [reflexivity|].
  simpl. unfold apiUpload.
  destruct (u_file u); [destruct (broken _)|]; simpl;
    (destruct (u_event u) as [[|c t]|]; simpl; try reflexivity;
     unfold Js.or; destruct (currentEvent st); reflexivity).
Qed.

Lemma upload_sets_event_witness :
  currentEvent (after (Middleware.uploadRoute Cases.populated
                         Cases.oversized))
  = Js.lit " Gala "
  /\ currentEvent (after (Middleware.uploadRoute Cases.populated
                            (Middleware.Passed Cases.fileless)))
     = Js.lit "Autumn Fair".
Proof.
  rewrite !upload_sets_event. split; vm_compute; reflexivity.
Defined.

(** X2.  When a file came and the parser reached its end, the roster
    becomes the usable rows of the file (those with a name that has a code
    unit other than white space), in the order of the file, each with its
    name trimmed and its email trimmed or empty; the earlier roster is gone
    and the count answered is the number of usable rows. *)
Theorem upload_stores_usable_rows (st : state) (u : submission)
    (file : Js.str) :
  u_file u = Some file ->
  broken (u_parsing u) = None ->
  participants (after (apiUpload st u))
  = map Routes.entry (filter Routes.usable (records (u_parsing u)))
  /\ payload (reply (apiUpload st u))
     = Json (UploadOk
               (List.length (filter Routes.usable (records (u_parsing u))))
               (currentEvent (after (apiUpload st u)))).
Proof.
  intros F B. unfold apiUpload. rewrite F, B. simpl.
  rewrite (collected (records (u_parsing u)) []). simpl.
  unfold Routes.collect. now rewrite length_map.
Qed.

Lemma upload_stores_usable_rows_witness :
  participants (after (apiUpload Cases.populated Sample.gala))
  = [mkParticipant (Js.lit "Dan") (Js.lit "d@e.f")]
  /\ payload (reply (apiUpload Cases.populated Sample.gala))
     = Json (UploadOk 1 (Js.lit " Gala ")).
Proof.
  refine (@upload_stores_usable_rows Cases.populated Sample.gala
            (Js.lit "uploads/1") _ _); vm_compute; reflexivity.
Defined.

(** X3.  A file that parses and has no usable row empties the roster: the
    answer is 200 with count 0. *)
Theorem upload_without_usable_rows (st : state) (u : submission)
    (file : Js.str) :
  u_file u = Some file ->
  broken (u_parsing u) = None ->
  existsb Routes.usable (records (u_parsing u)) = false ->
  participants (after (apiUpload st u)) = []
  /\ status (reply (apiUpload st u)) = 200%Z
  /\ payload (reply (apiUpload st u))
     = Json (UploadOk 0 (currentEvent (after (apiUpload st u)))).
Proof.
  intros F B E.
  assert (N : filter Routes.usable (records (u_parsing u)) = []).
  { induction (records (u_parsing u)) as [|row recs IH]; [reflexivity|].
    simpl in *. apply orb_false_iff in E as [Er Et].
    rewrite Er. now apply IH. }
  unfold apiUpload. rewrite F, B. simpl.
  rewrite (collected (records (u_parsing u)) []). simpl.
  unfold Routes.collect. now rewrite N.
Qed.

Lemma upload_without_usable_rows_witness :
  participants Cases.populated <> []
  /\ participants (after (apiUpload Cases.populated Cases.hollow)) = []
  /\ status (reply (apiUpload Cases.populated Cases.hollow)) = 200%Z
  /\ payload (reply (apiUpload Cases.populated Cases.hollow))
     = Json (UploadOk 0 (Js.lit " Gala ")).
Proof.
  split; [vm_compute; discriminate|].
  refine (@upload_without_usable_rows Cases.populated Cases.hollow
            (Js.lit "uploads/3") _ _ _); vm_compute; reflexivity.
Defined.

(** X4.  After an upload that was parsed to its end, the names route
    answers with the event the upload answered with and a roster of as many
    records as the count the upload answered with. *)
Theorem names_after_upload (st : state) (u : submission) (file : Js.str) :
  u_file u = Some file ->
  broken (u_parsing u) = None ->
  exists n event roster,
    payload (reply (apiUpload st u)) = Json (UploadOk n event)
    /\ payload (reply (apiNames (after (apiUpload st u))))
       = Json (NamesOk event roster)
    /\ List.length roster = n
    /\ roster = Routes.collect (records (u_parsing u)).
Proof.
  intros F B. unfold apiUpload. rewrite F, B. simpl.
  do 3 eexists. split; [reflexivity|]. split; [reflexivity|].
  split; [reflexivity|].
  now rewrite (collected (records (u_parsing u)) []).
Qed.

Lemma names_after_upload_witness :
  exists n event roster,
    payload (reply (apiUpload initial Sample.gala)) = Json (UploadOk n event)
    /\ payload (reply (apiNames (after (apiUpload initial Sample.gala))))
       = Json (NamesOk event roster)
    /\ List.length roster = n
    /\ roster = Routes.collect (records (u_parsing Sample.gala)).
Proof.
  refine (@names_after_upload initial Sample.gala (Js.lit "uploads/1") _ _);
    vm_compute; reflexivity.
Defined.

(** X5.  Only an upload changes the module state.  The roster stays as it
    is unless the request is an upload with a file whose parsing reaches
    the end; the current event stays as it is unless the request is an
    upload with a non-empty event field. *)
Theorem state_changes_only_by_upload (rt : runtime) (st : state)
    (r : request) :
  (Routes.replaces r = false ->
   participants (after (handle rt st r)) = participants st)
  /\ (Routes.renames r = false ->
      currentEvent (after (handle rt st r)) = currentEvent st).
Proof.
  destruct r as [u| |q|q|b];
    try (rewrite RenderFacts.rendering_keeps_state by reflexivity;
         now split);
    [|now split].
  simpl. split.
  - unfold apiUpload.
    destruct (u_file u); [destruct (broken _)|];
      simpl; (discriminate || reflexivity).
  - intros T. unfold apiUpload.
    destruct (u_file u); [destruct (broken _)|]; simpl;
      (destruct (u_event u) as [[|c t]|]; try discriminate T; simpl;
       unfold Js.or; destruct (currentEvent st); reflexivity).
Qed.

Lemma state_changes_only_by_upload_witness :
  participants (after (handle Sample.runtime Cases.populated
                              (Upload Sample.garbled)))
  = participants Cases.populated
  /\ currentEvent (after (handle Sample.runtime Cases.populated
                                 (Upload Sample.garbled)))
     = currentEvent Cases.populated.
Proof.
  split.
  - refine (proj1 (state_changes_only_by_upload Sample.runtime
                     Cases.populated (Upload Sample.garbled)) _);
      vm_compute; reflexivity.
  - refine (proj2 (state_changes_only_by_upload Sample.runtime
                     Cases.populated (Upload Sample.garbled)) _);
      vm_compute; reflexivity.
Defined.

(** X6.  The only file a request removes is the file uploaded with it, and
    an upload removes its file whether the parser reaches the end or
    fails; no other route removes anything. *)
Theorem only_the_upload_is_removed (rt : runtime) (st : state)
    (r : request) :
  unlinked (handle rt st r)
  = match r with
    | Upload u =>
        match u_file u with Some file => [file] | None => [] end
    | _ => []
    end.
Proof.
  destruct r as [u| |q|q|b]; simpl.
  - unfold apiUpload.
    destruct (u_file u); [destruct (broken _)|]; reflexivity.
  - reflexivity.
  - unfold apiPreview. rewrite RenderFacts.drawCertificate_drawn.
    destruct (negb _); [reflexivity|].
    unfold pipeToResponse. now destruct (emit _ _).
  - unfold apiGenerate. rewrite RenderFacts.drawCertificate_drawn.
    destruct (negb (Js.truthy _)); [reflexivity|].
    destruct (negb (Js.validHeaderValue _)); [reflexivity|].
    unfold pipeToResponse. now destruct (emit _ _).
  - unfold apiEmail. rewrite RenderFacts.drawCertificate_drawn.
    destruct (_ || _); [reflexivity|].
    destruct (emit _ _); [|reflexivity].
    now destruct (smtpFault rt).
Qed.

End Uploads.

(* ================================================================== *)
(** ** What the rendering routes answer *)
(* ================================================================== *)

Module Responses.

Import Pdf Server.

Lemma rendered_plain (name eventName today : Js.str) :
  existsb Spec.isOverlayEvent (Layout.rendered name eventName false today)
  = false.
Proof. reflexivity. Qed.

Lemma rendered_marked (name eventName today : Js.str) :
  existsb Spec.isOverlayEvent (Layout.rendered name eventName true today)
  = true.
Proof. reflexivity. Qed.

(** X7.  The download and email routes never deliver the overlay, not even
    in what reaches the client before a stream failure; the preview
    delivers it whenever its stream does not fail. *)
Theorem overlay_only_in_preview (rt : runtime) (st : state) (r : request)
    (chunks : list event) :
  delivered (handle rt st r) = Some chunks ->
  (Spec.watermarkOf r = false ->
   existsb Spec.isOverlayEvent chunks = false)
  /\ (Spec.watermarkOf r = true -> docFault rt = None ->
      existsb Spec.isOverlayEvent chunks = true).
Proof.
  intros D. split.
  - intros Wm. destruct r as [u| |q|q|b]; simpl in *; try discriminate.
    + revert D. unfold apiUpload.
      destruct (u_file u); [destruct (broken _)|]; discriminate.
    + revert D. unfold apiGenerate.
      rewrite RenderFacts.drawCertificate_drawn.
      destruct (negb (Js.truthy _)); [discriminate|].
      destruct (negb (Js.validHeaderValue _)); [discriminate|].
      unfold pipeToResponse, emit.
      rewrite RenderFacts.trace_finish_drawn.
      destruct (docFault rt) as [[k m]|]; unfold delivered; simpl;
        intros [= <-].
      * apply StringsMore.existsb_firstn_false, rendered_plain.
      * apply rendered_plain.
    + revert D. unfold apiEmail.
      rewrite RenderFacts.drawCertificate_drawn.
      destruct (_ || _); [discriminate|].
      unfold emit. rewrite RenderFacts.trace_finish_drawn.
      destruct (docFault rt) as [[k m]|]; [discriminate|].
      destruct (smtpFault rt); unfold delivered; simpl;
        intros [= <-]; apply rendered_plain.
  - intros Wm F.
    rewrite (RenderFacts.delivered_rendered rt st r F D), Wm.
    apply rendered_marked.
Qed.

Lemma overlay_only_in_preview_witness :
  existsb Spec.isOverlayEvent
    (firstn 3 (Layout.rendered (Js.lit "Alice Smith")
                 (Js.lit "Spring Hackathon") false (Js.lit "11/2/2026")))
  = false.
Proof.
  refine (proj1 (@overlay_only_in_preview Sample.failing initial
                   (Generate Sample.alice)
                   (firstn 3 (Layout.rendered (Js.lit "Alice Smith")
                                (Js.lit "Spring Hackathon") false
                                (Js.lit "11/2/2026")))
                   _) _); vm_compute; reflexivity.
Defined.

(** X8.  Every certificate delivered without a stream failure carries, at
    their anchors, the heading, the subtitle, the recipient name the route
    passes on, the body line, the date line made of "Date: " and the date
    string of the call, and the signature caption. *)
Theorem certificate_texts (rt : runtime) (st : state) (r : request)
    (chunks : list event) :
  docFault rt = None ->
  delivered (handle rt st r) = Some chunks ->
  Spec.textAt 0 80 chunks = Some (Js.lit "CERTIFICATE OF PARTICIPATION")
  /\ Spec.textAt 0 135 chunks = Some (Js.lit "This is to certify that")
  /\ Spec.textAt 0 175 chunks = Some (Spec.recipientOf r)
  /\ Spec.textAt 0 240 chunks
     = Some (Js.lit "has successfully participated in")
  /\ Spec.textAt 70 515 chunks = Some (Js.lit "Date: " ++ today rt)
  /\ Spec.textAt 592 485 chunks = Some (Js.lit "Authorized Signature").
Proof.
  intros F D. rewrite (RenderFacts.delivered_rendered rt st r F D).
  destruct (Spec.watermarkOf r); repeat (split; [reflexivity|]);
    reflexivity.
Qed.

Lemma certificate_texts_witness :
  Spec.textAt 0 175
    (Layout.rendered (Js.lit "Dave") (Js.lit " Summit ") false
                     (Js.lit "11/2/2026"))
  = Some (Js.lit "Dave")
  /\ Spec.textAt 70 515
       (Layout.rendered (Js.lit "Dave") (Js.lit " Summit ") false
                        (Js.lit "11/2/2026"))
     = Some (Js.lit "Date: 11/2/2026").
Proof.
  assert (T := @certificate_texts Sample.runtime initial (Email Cases.dave)
                 (Layout.rendered (Js.lit "Dave") (Js.lit " Summit ") false
                                  (Js.lit "11/2/2026"))
                 eq_refl).
  split; [refine (proj1 (proj2 (proj2 (T _))))
         |refine (proj1 (proj2 (proj2 (proj2 (proj2 (T _))))))];
    vm_compute; reflexivity.
Defined.

(** X9.  The name a route hands to the renderer is never empty; on the
    preview and download routes it is trimmed and has a code unit that is
    not white space. *)
Theorem rendered_name_valid (rt : runtime) (st : state) (r : request)
    (chunks : list event) :
  delivered (handle rt st r) = Some chunks ->
  Spec.recipientOf r <> []
  /\ (Routes.piping r = true ->
      Js.trim (Spec.recipientOf r) = Spec.recipientOf r
      /\ Js.blank (Spec.recipientOf r) = false).
Proof.
  destruct r as [u| |q|q|b]; simpl.
  - unfold apiUpload.
    destruct (u_file u); [destruct (broken _)|]; discriminate.
  - discriminate.
  - unfold apiPreview.
    destruct (Js.truthy (Js.trim (Js.orElse (q_name q) []))) eqn:T;
      [|discriminate].
    intros _. split; [now apply JsFacts.truthy_nonempty|]. intros _.
    split; [apply JsFacts.trim_idempotent|].
    now apply StringsMore.trim_nonblank.
  - unfold apiGenerate.
    destruct (Js.truthy (Js.trim (Js.orElse (q_name q) []))) eqn:T;
      [|discriminate].
    intros _. split; [now apply JsFacts.truthy_nonempty|]. intros _.
    split; [apply JsFacts.trim_idempotent|].
    now apply StringsMore.trim_nonblank.
  - unfold apiEmail.
    destruct (Js.truthyOpt (m_name b)) eqn:T; [|discriminate].
    intros _. split; [|discriminate].
    destruct (m_name b) as [n|]; [|discriminate].
    now apply JsFacts.truthy_nonempty.
Qed.

Lemma rendered_name_valid_witness :
  Js.trim (Js.lit "Eve") = Js.lit "Eve"
  /\ Js.blank (Js.lit "Eve") = false.
Proof.
  refine (proj2 (@rendered_name_valid Sample.runtime initial
                   (Preview Cases.spaced)
                   (Layout.rendered (Js.lit "Eve") [] true
                                    (Js.lit "11/2/2026"))
                   _) _); vm_compute; reflexivity.
Defined.




End Responses.

(* ================================================================== *)
(** ** The email route *)
(* ================================================================== *)

Module Letters.

Import Pdf Server.

(** X12.  For a body whose fields are strings or absent, the email route
    answers 400 when the name or the address is absent or empty; otherwise
    500 when the document or the delivery fails, and 200 when neither does.
    A letter is handed to the transport, exactly one, whenever the request
    is addressed and the document was produced, also when the delivery then
    fails; none is handed over with a 400. *)
Theorem email_status (rt : runtime) (st : state) (b : message) :
  status (reply (apiEmail rt st b))
  = (if negb (Routes.addressed b) then 400
     else if Routes.present (docFault rt) || Routes.present (smtpFault rt)
          then 500 else 200)%Z
  /\ List.length (outbox (apiEmail rt st b))
     = (if Routes.addressed b && negb (Routes.present (docFault rt))
        then 1 else 0)%nat.
Proof.
  unfold apiEmail, Routes.addressed.
  rewrite RenderFacts.drawCertificate_drawn.
  destruct (Js.truthyOpt (m_name b)), (Js.truthyOpt (m_email b)); simpl;
    try (split; reflexivity).
  unfold emit.
  destruct (docFault rt) as [[k m]|]; simpl; [split; reflexivity|].
  destruct (smtpFault rt); split; reflexivity.
Qed.

Lemma email_status_witness :
  status (reply (apiEmail Cases.offline initial Cases.dave)) = 500%Z
  /\ List.length (outbox (apiEmail Cases.offline initial Cases.dave))
     = 1%nat.
Proof.
  rewrite (proj1 (email_status Cases.offline initial Cases.dave)),
    (proj2 (email_status Cases.offline initial Cases.dave)).
  split; vm_compute; reflexivity.
Defined.

(** X13.  Every message the email route sends goes to the address of the
    request, has the event label in its subject, and carries one
    attachment: the whole certificate of the request, without watermark,
    under the certificate file name.  The sender is [FROM_EMAIL], or
    no-reply@example.com when that variable is absent or empty. *)
Theorem email_letter (rt : runtime) (st : state) (b : message)
    (letter : mail) :
  In letter (outbox (apiEmail rt st b)) ->
  to letter = Js.valueOf (m_email b)
  /\ from letter
     = Js.orElse (fromEmail rt) (Js.lit "no-reply@example.com")
  /\ subject letter
     = Js.lit "Your Certificate - " ++ Spec.labelFor st (Email b)
  /\ attachments letter
     = [mkAttachment
          (certificateFilename (Js.valueOf (m_name b)))
          (Layout.rendered (Js.valueOf (m_name b))
                           (Spec.labelFor st (Email b)) false (today rt))].
Proof.
  unfold apiEmail. rewrite RenderFacts.drawCertificate_drawn.
  destruct (_ || _); [intros []|].
  unfold emit. rewrite RenderFacts.trace_finish_drawn.
  destruct (docFault rt) as [[k m]|]; [intros []|].
  destruct (smtpFault rt); simpl; intros [<- | []]; repeat split.
Qed.

Lemma email_letter_witness :
  exists letter,
    outbox (apiEmail Sample.runtime initial Cases.dave) = [letter]
    /\ to letter = Js.lit "dave@x.y"
    /\ subject letter = Js.lit "Your Certificate -  Summit ".
Proof.
  eexists. split; [vm_compute; reflexivity|].
  refine ((fun T => conj (proj1 T) (proj1 (proj2 (proj2 T))))
            (@email_letter Sample.runtime initial Cases.dave _ _)).
  vm_compute. left. reflexivity.
Defined.

End Letters.

(* ================================================================== *)
(** ** Where the event label comes from *)
(* ================================================================== *)

Module Labels.

Import Pdf Server.

(** X14.  A certificate requested without an event label after an upload
    request carries as its label the current event that request led to
    (trimmed on the preview and download routes): the event field of the
    upload when the handler ran and the field was not empty, also when the
    handler then answered 400 or 500; and the earlier current event when the
    field was absent or empty or when multer refused the upload. *)
Theorem upload_event_becomes_default (rt : runtime) (st : state)
    (i : Middleware.intake) (r : request) (chunks : list event) :
  reachable st ->
  Js.truthyOpt (Spec.givenEvent r) = false ->
  docFault rt = None ->
  delivered (handle rt (after (Middleware.uploadRoute st i)) r)
  = Some chunks ->
  Spec.labelOf chunks
  = Some (Routes.asLabel r (Middleware.eventAfter st i)).
Proof.
  intros R A F D.
  pose proof (EventLabel.delivered_rendering _ _ _ D) as G.
  rewrite (RenderFacts.delivered_rendered _ _ _ F D),
    EventLabel.labelOf_rendered.
  f_equal.
  pose proof (Roster.reachable_invariant_event R) as C.
  assert (L : Spec.requestedLabel
                (after (Middleware.uploadRoute st i)) r
              = Middleware.eventAfter st i).
  { unfold Spec.requestedLabel.
    rewrite (JsFacts.orElse_absent _ _ A).
    destruct i as [m|u]; simpl.
    - now apply JsFacts.or_truthy.
    - destruct (Js.truthyOpt (u_event u)) eqn:E.
      + rewrite (Uploads.upload_event_given st u E).
        apply JsFacts.or_truthy.
        destruct (u_event u) as [[|c t]|]; discriminate.
      + assert (K : currentEvent (after (apiUpload st u)) = currentEvent st).
        { unfold apiUpload.
          destruct (u_file u); [destruct (broken _)|]; simpl;
            (destruct (u_event u) as [[|c t]|]; try discriminate E; simpl;
             unfold Js.or; destruct (currentEvent st); reflexivity). }
        rewrite K. now apply JsFacts.or_truthy. }
  destruct r as [v| |q|q|b]; try discriminate G; simpl; now rewrite L.
Qed.

Lemma upload_event_becomes_default_witness :
  status (reply (Middleware.uploadRoute initial
                   (Middleware.Passed Cases.fileless))) = 500%Z
  /\ Spec.labelOf (Layout.rendered (Js.lit "Bob") (Js.lit "Autumn Fair") true
                                   (Js.lit "11/2/2026"))
     = Some (Js.lit "Autumn Fair").
Proof.
  split; [vm_compute; reflexivity|].
  refine (@upload_event_becomes_default Sample.runtime initial
            (Middleware.Passed Cases.fileless) (Preview Sample.bob)
            (Layout.rendered (Js.lit "Bob") (Js.lit "Autumn Fair") true
                             (Js.lit "11/2/2026"))
            reach_initial _ _ _); vm_compute; reflexivity.
Defined.

(** X15.  An event label in the request that is not empty wins over the
    current event.  The preview and download routes trim it after that
    choice, so a label of white space only is drawn as the empty text and
    not replaced by the current event; the email route draws it as it
    came. *)
Theorem explicit_event_label (rt : runtime) (st : state) (r : request)
    (chunks : list event) :
  Js.truthyOpt (Spec.givenEvent r) = true ->
  docFault rt = None ->
  delivered (handle rt st r) = Some chunks ->
  Spec.labelOf chunks
  = Some (Routes.asLabel r (Js.valueOf (Spec.givenEvent r))).
Proof.
  intros E F D.
  pose proof (EventLabel.delivered_rendering _ _ _ D) as G.
  rewrite (RenderFacts.delivered_rendered _ _ _ F D),
    EventLabel.labelOf_rendered.
  f_equal.
  assert (L : Spec.requestedLabel st r = Js.valueOf (Spec.givenEvent r)).
  { unfold Spec.requestedLabel.
    destruct (Spec.givenEvent r) as [[|c t]|]; try discriminate.
    reflexivity. }
  destruct r as [v| |q|q|b]; try discriminate G; simpl; now rewrite L.
Qed.

Lemma explicit_event_label_witness :
  Spec.labelOf (Layout.rendered (Js.lit "Eve") [] true (Js.lit "11/2/2026"))
  = Some [].
Proof.
  refine (@explicit_event_label Sample.runtime Cases.populated
            (Preview Cases.spaced)
            (Layout.rendered (Js.lit "Eve") [] true (Js.lit "11/2/2026"))
            _ _ _); vm_compute; reflexivity.
Defined.

(** X16.  In every state the server can reach the current event is not
    empty, so the literal "Event" is never chosen: the label a route asks
    for is the event label of the request when it is not empty and the
    current event otherwise. *)
Theorem event_literal_is_dead (st : state) (r : request) :
  reachable st ->
  currentEvent st <> []
  /\ Spec.requestedLabel st r
     = Js.orElse (Spec.givenEvent r) (currentEvent st).
Proof.
  intros R. pose proof (Roster.reachable_invariant_event R) as C.
  split; [exact C|].
  unfold Spec.requestedLabel.
  apply JsFacts.or_truthy. now apply JsFacts.orElse_nonempty.
Qed.

Lemma event_literal_is_dead_witness :
  currentEvent Cases.populated <> []
  /\ Spec.requestedLabel Cases.populated (Preview Sample.bob)
     = Js.orElse (Spec.givenEvent (Preview Sample.bob))
                 (currentEvent Cases.populated).
Proof.
  exact (event_literal_is_dead (Preview Sample.bob)
           (reach_handle Sample.runtime (Upload Sample.gala) reach_initial)).
Defined.

End Labels.

(* ================================================================== *)
(** ** File names and headers *)
(* ================================================================== *)

Module Files.

Import Pdf Server.

(** X17.  The certificate file name has at least 16 code units and at
    most 16 more than the name; a name without white space goes into it
    unchanged; and replacing white space twice gives the same file name as
    replacing it once. *)
Theorem filename_shape (name : Js.str) :
  (16 <= List.length (certificateFilename name)
   <= 16 + List.length name)%nat
  /\ (Js.noWhiteSpace name = true ->
      certificateFilename name
      = Js.lit "Certificate_" ++ name ++ Js.lit ".pdf")
  /\ certificateFilename (Js.replaceWhitespace name)
     = certificateFilename name.
Proof.
  unfold certificateFilename, Js.replaceWhitespace.
  split; [|split].
  - rewrite !length_app.
    pose proof (StringsMore.replaceRuns_length name false).
    change (List.length (Js.lit "Certificate_")) with 12%nat.
    change (List.length (Js.lit ".pdf")) with 4%nat. lia.
  - intros N. now rewrite StringsMore.replaceRuns_clean_fixed.
  - now rewrite (StringsMore.replaceRuns_clean_fixed _
                   (JsFacts.replaceRuns_clean name false)).
Qed.

Lemma filename_shape_witness :
  certificateFilename (Js.lit "Bob")
  = Js.lit "Certificate_" ++ Js.lit "Bob" ++ Js.lit ".pdf".
Proof.
  refine (proj1 (proj2 (filename_shape (Js.lit "Bob"))) _);
    vm_compute; reflexivity.
Defined.

(** X18.  A response has the PDF content type exactly when a document is
    piped into it, and only the download route adds a
    [Content-Disposition]: the preview, the email route, the upload, the
    names route and every refusal set neither. *)
Theorem pdf_headers (rt : runtime) (st : state) (r : request) :
  (In pdfType (headers (reply (handle rt st r)))
   <-> exists chunks, payload (reply (handle rt st r)) = Piped chunks)
  /\ (forall file,
        In (disposition file) (headers (reply (handle rt st r))) ->
        exists q, r = Generate q).
Proof.
  destruct r as [u| |q|q|b]; simpl.
  - unfold apiUpload.
    destruct (u_file u); [destruct (broken _)|]; simpl;
      (split; [split; [intros []|intros [c X]; discriminate X]
              |intros file []]).
  - split; [split; [intros []|intros [c X]; discriminate X]|intros file []].
  - unfold apiPreview. rewrite RenderFacts.drawCertificate_drawn.
    destruct (negb _); simpl.
    + split; [split; [intros []|intros [c X]; discriminate X]
             |intros file []].
    + unfold pipeToResponse.
      destruct (emit _ _); simpl;
        (split; [split; [intros _; eexists; reflexivity|intros _; now left]
                |intros file [X | []]; discriminate X]).
  - split; [|intros file _; now exists q].
    unfold apiGenerate. rewrite RenderFacts.drawCertificate_drawn.
    destruct (negb (Js.truthy _)); simpl.
    + split; [intros []|intros [c X]; discriminate X].
    + destruct (negb (Js.validHeaderValue _)); simpl.
      * split; [intros []|intros [c X]; discriminate X].
      * unfold pipeToResponse.
        destruct (emit _ _); simpl;
          (split; [intros _; eexists; reflexivity|intros _; now left]).
  - unfold apiEmail. rewrite RenderFacts.drawCertificate_drawn.
    destruct (_ || _); simpl;
      [split; [split; [intros []|intros [c X]; discriminate X]
              |intros file []]|].
    destruct (emit _ _); simpl;
      [destruct (smtpFault rt); simpl|];
      (split; [split; [intros []|intros [c X]; discriminate X]
              |intros file []]).
Qed.

Lemma pdf_headers_witness :
  In pdfType
     (headers (reply (handle Sample.failing initial (Preview Sample.alice)))).
Proof.
  apply (proj2 (proj1 (pdf_headers Sample.failing initial
                         (Preview Sample.alice)))).
  eexists. vm_compute. reflexivity.
Defined.

End Files.
